(** * SuiteCloud++ multi-environment engine: a shallow embedding

    The development follows the extension's environment module (the one
    that declares [MSG_SHOW_ALL_ENVIRONMENTS], [environments],
    [defaultAuthIdsByProjectJson] and the functions
    [loadNetSuiteEnvironments], [loadEnvironmentDetails],
    [updateStatusBarItem], [handleSelectEnvironment] and
    [onProjectJsonFileChanged]) and the older [multiEnvironment.ts]
    ([getNetSuiteEnvironments]).

    Modelling conventions
    - A JavaScript string is a [string] whose characters are UTF-16 code
      units below 256 (Latin-1).
    - A file is kept as the document [JSON.parse] makes of its text, or
      as text that does not parse.  [JSON.stringify] followed by
      [JSON.parse] gives a document back as it is, the [Date] of the
      marker being printed by [toISOString]; a number is kept by its
      numeric value.  A write to a file always succeeds.
    - The module-level variables and everything the host editor, the file
      system and the SuiteCloud command line do live in one [World];
      an [async] function is a state transformer that may throw.
    - A call that the source does not [await] is run to completion where
      it is made and its rejection is dropped; the finer interleaving of
      tasks at their suspension points is not modelled.
    - [Record<string, T>] objects are finite maps.  Property names that
      every object inherits ([constructor], [toString], [__proto__], ...)
      are not supported as environment names or detail keys.
    - The lines written to the output channel and to the console are left
      out: nothing reads them back.  The messages shown to the user are
      kept by kind, not by text. *)

From Stdlib Require Import Ascii String QArith Qcanon.
From stdpp Require Import gmap strings list fin_maps.

#[local] Set Warnings "-register-all".

(** ** JavaScript string primitives *)

Module JsString.

Definition code (c : ascii) : N := N_of_ascii c.

(** White space and line terminators removed by [String.prototype.trim]
    (those below U+0100). *)
Definition isWhiteSpace (c : ascii) : bool :=
  let n := code c in
  ((9 <=? n) && (n <=? 13) || (n =? 32) || (n =? 160))%N.

(** The character class [[\u0000-\u001F\u007F-\u009F]]. *)
Definition isControl (c : ascii) : bool :=
  let n := code c in
  ((n <=? 31) || (127 <=? n) && (n <=? 159))%N.

Definition lowerChar (c : ascii) : ascii :=
  let n := code c in
  if ((65 <=? n) && (n <=? 90)
      || (192 <=? n) && (n <=? 214)
      || (216 <=? n) && (n <=? 222))%N
  then ascii_of_N (n + 32) else c.

Fixpoint toLowerCase (s : string) : string :=
  match s with
  | "" => ""
  | String c s' => String (lowerChar c) (toLowerCase s')
  end.

Fixpoint startsWith (p s : string) : bool :=
  match p, s with
  | "", _ => true
  | String a p', String b s' => bool_decide (a = b) && startsWith p' s'
  | String _ _, "" => false
  end.

Fixpoint includes (sub s : string) : bool :=
  startsWith sub s ||
  match s with
  | "" => false
  | String _ s' => includes sub s'
  end.

Fixpoint dropWhile (f : ascii → bool) (s : string) : string :=
  match s with
  | "" => ""
  | String c s' => if f c then dropWhile f s' else s
  end.

(** Drops the longest suffix whose characters all satisfy [f]. *)
Fixpoint dropWhileEnd (f : ascii → bool) (s : string) : string :=
  match s with
  | "" => ""
  | String c s' =>
      match dropWhileEnd f s' with
      | "" => if f c then "" else String c ""
      | t => String c t
      end
  end.

Definition trim (s : string) : string :=
  dropWhileEnd isWhiteSpace (dropWhile isWhiteSpace s).

Fixpoint filterChars (f : ascii → bool) (s : string) : string :=
  match s with
  | "" => ""
  | String c s' => if f c then String c (filterChars f s') else filterChars f s'
  end.

(** [s.replace(/[\u0000-\u001F\u007F-\u009F]/g, "")] *)
Definition stripControl (s : string) : string :=
  filterChars (λ c, negb (isControl c)) s.

Fixpoint dropChars (n : nat) (s : string) : string :=
  match n, s with
  | O, _ => s
  | S n', String _ s' => dropChars n' s'
  | S _, "" => ""
  end.

(** [s.replace(pat, rep)] with a string pattern: only the first
    occurrence is replaced. *)
Fixpoint replaceFirst (pat rep s : string) : string :=
  if startsWith pat s then rep +:+ dropChars (String.length pat) s
  else match s with
       | "" => ""
       | String c s' => String c (replaceFirst pat rep s')
       end.

(** [s.split(sep)] for a non-empty separator.  [skip] counts the
    characters of a separator occurrence still to be passed over and
    [cur] is the piece being read. *)
Fixpoint splitAux (sep : string) (skip : nat) (cur s : string) : list string :=
  match s with
  | "" => [cur]
  | String c s' =>
      match skip with
      | S k => splitAux sep k cur s'
      | O =>
          if startsWith sep s
          then cur :: splitAux sep (String.length sep - 1) "" s'
          else splitAux sep O (cur +:+ String c "") s'
      end
  end.

Definition split (sep s : string) : list string := splitAux sep 0 "" s.

End JsString.

Import JsString.

(** ** JSON documents and JavaScript values *)

(** What [JSON.parse] returns.  A number is kept by its numeric value. *)
Inductive json : Type :=
| JNull
| JBool (b : bool)
| JNum (q : Qc)
| JStr (s : string)
| JArr (l : list json)
| JObj (m : gmap string json).

(** A value read from a variable or a property: [None] is [undefined]. *)
Abbreviation jsval := (option json).

(** [ToBoolean], as used by [if (x)] and [!x]. *)
Definition truthy (v : jsval) : bool :=
  match v with
  | None => false
  | Some JNull => false
  | Some (JBool b) => b
  | Some (JNum q) => bool_decide (q ≠ 0%Qc)
  | Some (JStr s) => bool_decide (s ≠ "")
  | Some (JArr _) => true
  | Some (JObj _) => true
  end.

Inductive Result (A : Type) : Type :=
| Ok (a : A)
| Throw.
Arguments Ok {A} a.
Arguments Throw {A}.

(** [j[k]] for one of the two property names the program reads from a
    parsed document, [defaultAuthId] and [suiteCloudPlusPlusLastModified]:
    reading a property of [null] throws a TypeError; numbers, strings,
    booleans and arrays have no such property. *)
Definition getProp (j : json) (k : string) : Result jsval :=
  match j with
  | JNull => Throw
  | JObj m => Ok (m !! k)
  | _ => Ok None
  end.

(** [j[k] = v] in strict mode (the module is an ES module), followed up to
    what [JSON.stringify] later prints: on an object the property is set,
    on an array it is set but never serialised, on [null] and on a
    primitive the assignment throws a TypeError. *)
Definition setProp (j : json) (k : string) (v : json) : Result json :=
  match j with
  | JObj m => Ok (JObj (<[k := v]> m))
  | JArr l => Ok (JArr l)
  | _ => Throw
  end.

(** *** [Date.prototype.toISOString] *)

Module Date.

#[local] Open Scope Z_scope.

Definition msPerDay : Z := 86400000.

Definition digit (d : Z) : ascii := ascii_of_N (48 + Z.to_N d)%N.

(** The [width] low decimal digits of [n], most significant first. *)
Fixpoint padAux (width : nat) (n : Z) (acc : string) : string :=
  match width with
  | O => acc
  | S w => padAux w (n / 10) (String (digit (n mod 10)) acc)
  end.

Definition pad (width : nat) (n : Z) : string := padAux width n "".

(** Year, month (1 to 12) and day of the month of the day numbered
    [days] from 1 January 1970, in the proleptic Gregorian calendar. *)
Definition civil (days : Z) : Z * Z * Z :=
  let z := days + 719468 in
  let era := z / 146097 in
  let doe := z - era * 146097 in
  let yoe := (doe - doe / 1460 + doe / 36524 - doe / 146096) / 365 in
  let doy := doe - (365 * yoe + yoe / 4 - yoe / 100) in
  let mp := (5 * doy + 2) / 153 in
  let d := doy - (153 * mp + 2) / 5 + 1 in
  let m := if mp <? 10 then mp + 3 else mp - 9 in
  let y := yoe + era * 400 + (if m <=? 2 then 1 else 0) in
  (y, m, d).

Definition yearString (y : Z) : string :=
  if (0 <=? y) && (y <=? 9999) then pad 4 y
  else (if y <? 0 then "-" else "+") +:+ pad 6 (Z.abs y).

(** [t] is the time value: milliseconds since the epoch, UTC. *)
Definition toISOString (t : Z) : string :=
  let '(y, m, d) := civil (t / msPerDay) in
  let ms := t mod msPerDay in
  yearString y +:+ "-" +:+ pad 2 m +:+ "-" +:+ pad 2 d +:+ "T"
    +:+ pad 2 (ms / 3600000) +:+ ":" +:+ pad 2 (ms / 60000 mod 60) +:+ ":"
    +:+ pad 2 (ms / 1000 mod 60) +:+ "." +:+ pad 3 (ms mod 1000) +:+ "Z".

End Date.

(** ** Environment records *)

(** [interface NetSuiteAuthAccountInfo]: the mandatory [name] and the
    other own properties, all of them strings ([type], ['Account ID'],
    ...). *)
Record NetSuiteAuthAccountInfo : Type := {
  name : string;
  props : gmap string string;
}.

(** [{ name: envName }] *)
Definition nameOnly (envName : string) : NetSuiteAuthAccountInfo :=
  {| name := envName; props := ∅ |}.

(** [envInfo[key] = val] *)
Definition setField (key val : string) (e : NetSuiteAuthAccountInfo)
  : NetSuiteAuthAccountInfo :=
  if bool_decide (key = "name")
  then {| name := val; props := props e |}
  else {| name := name e; props := <[key := val]> (props e) |}.

(** [Object.keys(e).length] *)
Definition keysCount (e : NetSuiteAuthAccountInfo) : nat := S (size (props e)).

(** A string-valued property is falsy when it is missing or empty. *)
Definition truthyString (v : option string) : bool :=
  match v with
  | Some s => bool_decide (s ≠ "")
  | None => false
  end.

(** [Object.keys(existing).length === 1 || !existing.type] *)
Definition hasNoDetails (e : NetSuiteAuthAccountInfo) : bool :=
  bool_decide (keysCount e = 1) || negb (truthyString (props e !! "type")).

(** ** The world: host, module variables, effects *)

Definition TAG : string := "SuiteCloud++:".
Definition MSG_SHOW_ALL_ENVIRONMENTS : string := "CLEAR FILTER / SHOW ALL".
Definition LF : string := String "010" "".
Definition LIST_COMMAND : string := "suitecloud account:manageauth --list".
Definition INFO_COMMAND : string := "suitecloud account:manageauth --info ".
Definition DEFAULT_AUTH_ID : string := "defaultAuthId".
Definition LAST_MODIFIED : string := "suiteCloudPlusPlusLastModified".

(** What [require(configFile.fsPath)] exports, as far as it is read;
    [authIdFilter] is a string or is not exported. *)
Record ModuleExports : Type := { authIdFilter : option string }.

Record WorkspaceFolder : Type := { folderPath : string; folderName : string }.

(** The text of a file, up to [JSON.parse]. *)
Inductive FileContent : Type :=
| NotJson
| Parsed (j : json).

(** The collaborators.  A [Uri] is identified with its path. *)
Record Host : Type := {
  (** [execPromise(cmd)]: the standard output, or [None] when the
      command fails. *)
  exec : string → option string;
  (** [vscode.workspace.getWorkspaceFolder(uri)] *)
  getWorkspaceFolder : string → option WorkspaceFolder;
  (** [vscode.workspace.findFiles(new RelativePattern(folder, name))] *)
  findFiles : WorkspaceFolder → string → list string;
  (** [vscode.workspace.findFiles("**/project.json")] *)
  findProjectFiles : list string;
  (** [vscode.window.activeTextEditor?.document.uri] *)
  activeTextEditor : option string;
  (** [require(path)] with the module cache entry deleted first;
      [None] when loading the module throws. *)
  requireFresh : string → option ModuleExports;
  (** [new RegExp(source, 'i')] and its [test]; [None] when the source
      is not a regular expression (SyntaxError). *)
  newRegExp : string → option (string → bool);
  (** The time value [new Date()] gets. *)
  clock : Z;
}.

(** The messages shown with [showErrorMessage] and
    [showInformationMessage]. *)
Inductive Message : Type :=
| MsgNoProjectJsonInWorkspace   (* No project.json files found in this workspace *)
| MsgNoEnvironmentsFound        (* No NetSuite environments found. Please check ... *)
| MsgRetrieved (n : nat)        (* Successfully retrieved n NetSuite environment(s) ... *)
| MsgErrorRetrieving            (* Error retrieving NetSuite environments. Is SDF CLI installed? *)
| MsgNoProjectJsonInProject     (* No project.json file found in this project. *)
| MsgNoEnvironmentsToSelect     (* No environments to select from. Do you have an invalid authIdFilter ... *)
| MsgSwitched (prefix : option string) (env : string)
                                (* prefix: The default account ... was successfully set to env. *)
| MsgUnexpected                 (* Unexepcted error while processing account switch request. *)
| MsgTooMany (file folder : string) (n : nat).
                                (* Expected at most one file in workspace folder ... but found n. *)

Inductive Event : Type :=
| EvExec (cmd : string)
| EvReadFile (path : string)
| EvWriteFile (path : string) (content : json)
| EvError (m : Message)
| EvInfo (m : Message)
| EvQuickPick (items : list string) (placeHolder : string).

Inductive StatusText : Type :=
| TextNone
| TextGettingEnvironments        (* $(sync~spin) Getting NetSuite environments... *)
| TextGlobe (defaultAuthId : json).  (* $(globe) ${defaultAuthId} *)

Record StatusBarItem : Type := {
  text : StatusText;
  color : option string;
  visible : bool;
}.

Record World : Type := {
  host : Host;
  files : gmap string FileContent;
  (** [let environments: NetSuiteAuthAccountInfo[]] *)
  environments : list NetSuiteAuthAccountInfo;
  (** [defaultAuthIdsByProjectJson]; an own property may hold
      [undefined]. *)
  defaultAuthIdsByProjectJson : gmap string jsval;
  projectJsonFilesByWorkspaceFolder : gmap string string;
  statusBarItem : StatusBarItem;
  trace : list Event;
}.

Definition setFiles (f : gmap string FileContent → gmap string FileContent) (w : World) : World :=
  {| host := host w; files := f (files w); environments := environments w;
     defaultAuthIdsByProjectJson := defaultAuthIdsByProjectJson w;
     projectJsonFilesByWorkspaceFolder := projectJsonFilesByWorkspaceFolder w;
     statusBarItem := statusBarItem w; trace := trace w |}.

Definition setEnvironments (f : list NetSuiteAuthAccountInfo → list NetSuiteAuthAccountInfo)
  (w : World) : World :=
  {| host := host w; files := files w; environments := f (environments w);
     defaultAuthIdsByProjectJson := defaultAuthIdsByProjectJson w;
     projectJsonFilesByWorkspaceFolder := projectJsonFilesByWorkspaceFolder w;
     statusBarItem := statusBarItem w; trace := trace w |}.

Definition setCache (f : gmap string jsval → gmap string jsval) (w : World) : World :=
  {| host := host w; files := files w; environments := environments w;
     defaultAuthIdsByProjectJson := f (defaultAuthIdsByProjectJson w);
     projectJsonFilesByWorkspaceFolder := projectJsonFilesByWorkspaceFolder w;
     statusBarItem := statusBarItem w; trace := trace w |}.

Definition setMemo (f : gmap string string → gmap string string) (w : World) : World :=
  {| host := host w; files := files w; environments := environments w;
     defaultAuthIdsByProjectJson := defaultAuthIdsByProjectJson w;
     projectJsonFilesByWorkspaceFolder := f (projectJsonFilesByWorkspaceFolder w);
     statusBarItem := statusBarItem w; trace := trace w |}.

Definition setStatusBar (f : StatusBarItem → StatusBarItem) (w : World) : World :=
  {| host := host w; files := files w; environments := environments w;
     defaultAuthIdsByProjectJson := defaultAuthIdsByProjectJson w;
     projectJsonFilesByWorkspaceFolder := projectJsonFilesByWorkspaceFolder w;
     statusBarItem := f (statusBarItem w); trace := trace w |}.

Definition addEvent (e : Event) (w : World) : World :=
  {| host := host w; files := files w; environments := environments w;
     defaultAuthIdsByProjectJson := defaultAuthIdsByProjectJson w;
     projectJsonFilesByWorkspaceFolder := projectJsonFilesByWorkspaceFolder w;
     statusBarItem := statusBarItem w; trace := trace w ++ [e] |}.

(** *** The monad of the [async] functions *)

Definition M (A : Type) : Type := World → Result A * World.

Definition ret {A} (a : A) : M A := λ w, (Ok a, w).

Definition bind {A B} (m : M A) (k : A → M B) : M B :=
  λ w, match m w with
       | (Ok a, w') => k a w'
       | (Throw, w') => (Throw, w')
       end.

Definition throw {A} : M A := λ w, (Throw, w).

(** [try { m } catch (error) { h }] *)
Definition tryCatch {A} (m h : M A) : M A :=
  λ w, match m w with
       | (Ok a, w') => (Ok a, w')
       | (Throw, w') => h w'
       end.

(** A call to an [async] function that is not awaited. *)
Definition spawn {A} (m : M A) : M unit := λ w, (Ok tt, (m w).2).

Definition gets {A} (f : World → A) : M A := λ w, (Ok (f w), w).

Definition modify (f : World → World) : M unit := λ w, (Ok tt, f w).

Definition emit (e : Event) : M unit := modify (addEvent e).

Definition liftResult {A} (r : Result A) : M A := λ w, (r, w).

Declare Scope js_scope.
Delimit Scope js_scope with js.
Notation "x <- m ;; k" := (bind m (λ x, k))
  (at level 100, m at next level, right associativity) : js_scope.
Notation "m ;; k" := (bind m (λ _, k))
  (at level 100, right associativity) : js_scope.
#[local] Open Scope js_scope.

Definition execPromise (cmd : string) : M string :=
  emit (EvExec cmd) ;;
  h <- gets host ;;
  match exec h cmd with
  | Some stdout => ret stdout
  | None => throw
  end.

(** [fs.promises.readFile(path, "utf8")]; a missing file rejects. *)
Definition readFile (path : string) : M FileContent :=
  emit (EvReadFile path) ;;
  fs <- gets files ;;
  match fs !! path with
  | Some c => ret c
  | None => throw
  end.

Definition JSON_parse (c : FileContent) : M json :=
  match c with
  | Parsed j => ret j
  | NotJson => throw
  end.

(** [fs.promises.writeFile(path, JSON.stringify(j, null, 4))] *)
Definition writeFile (path : string) (j : json) : M unit :=
  emit (EvWriteFile path j) ;;
  modify (setFiles (<[path := Parsed j]>)).

Definition showErrorMessage (m : Message) : M unit := emit (EvError m).
Definition showInformationMessage (m : Message) : M unit := emit (EvInfo m).

Definition hide : M unit :=
  modify (setStatusBar (λ s, {| text := text s; color := color s; visible := false |})).
Definition show : M unit :=
  modify (setStatusBar (λ s, {| text := text s; color := color s; visible := true |})).
Definition setText (t : StatusText) : M unit :=
  modify (setStatusBar (λ s, {| text := t; color := color s; visible := visible s |})).
Definition setColor (c : string) : M unit :=
  modify (setStatusBar (λ s, {| text := text s; color := Some c; visible := visible s |})).

(** ** The program *)

(** [createStatusBarItem] *)
Definition createStatusBarItem : M unit :=
  modify (setStatusBar (λ _,
    {| text := TextGettingEnvironments; color := None; visible := true |})).

(** The callback mapped over the lines of the command line's output, up
    to the field split. *)
Definition cleanLine (line : string) : string :=
  replaceFirst "[2K[1G" "" (stripControl line).

(** [getNetSuiteEnvironments] of [multiEnvironment.ts], and the [envList]
    of [loadNetSuiteEnvironments]:
    [stdout.trim().split("\n").map(line => ... .split(" | ")[0])]. *)
Definition getNetSuiteEnvironments (stdout : string) : list string :=
  map (λ line, hd "" (split " | " (cleanLine line))) (split LF (trim stdout)).

(** [oldEnvironmentsByName] after the loop that fills it. *)
Definition oldEnvironmentsByName (old : list NetSuiteAuthAccountInfo)
  : gmap string NetSuiteAuthAccountInfo :=
  foldl (λ m env, <[name env := env]> m) ∅ old.

(** One turn of [envList.forEach(envName => ...)]: the state is the pair
    of the new [environments] and [envsToGetDetails]. *)
Definition mergeStep (byName : gmap string NetSuiteAuthAccountInfo)
  (acc : list NetSuiteAuthAccountInfo * list string) (envName : string)
  : list NetSuiteAuthAccountInfo * list string :=
  match byName !! envName with
  | None => (acc.1 ++ [nameOnly envName], acc.2 ++ [envName])
  | Some existing =>
      (acc.1 ++ [existing],
       if hasNoDetails existing then acc.2 ++ [envName] else acc.2)
  end.

(** The merge of [loadNetSuiteEnvironments]: the new catalog and the
    names whose details are to be fetched. *)
Definition mergeEnvironments (old : list NetSuiteAuthAccountInfo)
  (envList : list string) : list NetSuiteAuthAccountInfo * list string :=
  foldl (mergeStep (oldEnvironmentsByName old)) ([], []) envList.

(** [findNearestProjectJsonFile] *)
Definition findNearestProjectJsonFile (refFile : option string) : M (option string) :=
  h <- gets host ;;
  let refFile := match refFile with Some r => Some r | None => activeTextEditor h end in
  match refFile ≫= getWorkspaceFolder h with
  | None => ret None
  | Some workspaceFolder =>
      memo <- gets projectJsonFilesByWorkspaceFolder ;;
      match memo !! folderPath workspaceFolder with
      | Some projectJsonFile => ret (Some projectJsonFile)
      | None =>
          match findFiles h workspaceFolder "project.json" with
          | [] => ret None
          | [f] => modify (setMemo (<[folderPath workspaceFolder := f]>)) ;; ret (Some f)
          | fs =>
              showErrorMessage
                (MsgTooMany "project.json" (folderName workspaceFolder) (length fs)) ;;
              ret None
          end
      end
  end.

(** [getSuiteCloudConfig] *)
Definition getSuiteCloudConfig (refFile : string) : M (option string) :=
  h <- gets host ;;
  match getWorkspaceFolder h refFile with
  | None => ret None
  | Some workspaceFolder =>
      match findFiles h workspaceFolder "suitecloud.config.js" with
      | [] => ret None
      | [f] => ret (Some f)
      | fs =>
          showErrorMessage
            (MsgTooMany "suitecloud.config.js" (folderName workspaceFolder) (length fs)) ;;
          ret None
      end
  end.

(** The record the loop of [isProd] stops at: the first one of that
    name. *)
Definition accInfoOf (envs : list NetSuiteAuthAccountInfo) (authId : string)
  : option NetSuiteAuthAccountInfo :=
  List.find (λ env, bool_decide (name env = authId)) envs.

(** [isProd], the function nested in [updateStatusBarItem]; [envs] is the
    module variable [environments]. *)
Definition isProd (envs : list NetSuiteAuthAccountInfo) (authId : string) : bool :=
  if bool_decide (authId = "") then false
  else
    let accInfo := accInfoOf envs authId in
    let isTstdrvAcc :=
      startsWith "tstdrv"
        (toLowerCase (default "" (accInfo ≫= (λ e, props e !! "Account ID")))) in
    if isTstdrvAcc then false
    else if bool_decide (accInfo ≫= (λ e, props e !! "type") = Some "Production") then true
    else includes "prod" (toLowerCase authId).

(** [updateStatusBarItem].  A truthy [defaultAuthId] that is not a string
    makes [isProd] throw at [authId.toLowerCase()], after the text has
    been set. *)
Definition updateStatusBarItem (jsonFile : option string) : M unit :=
  projectJsonFile <-
    match jsonFile with
    | None => findNearestProjectJsonFile None
    | Some f => ret (Some f)
    end ;;
  defaultAuthId <-
    match projectJsonFile with
    | Some path =>
        cache <- gets defaultAuthIdsByProjectJson ;;
        match mjoin (cache !! path) with
        | Some v => ret (Some v)
        | None =>
            fileContents <- readFile path ;;
            jsonContent <- JSON_parse fileContents ;;
            v <- liftResult (getProp jsonContent DEFAULT_AUTH_ID) ;;
            modify (setCache (<[path := v]>)) ;;
            ret v
        end
    | None => ret None
    end ;;
  match defaultAuthId with
  | Some v =>
      if truthy (Some v) then
        setText (TextGlobe v) ;;
        match v with
        | JStr authId =>
            envs <- gets environments ;;
            setColor (if isProd envs authId then "yellow" else "white") ;;
            show
        | _ => throw
        end
      else hide
  | None => hide
  end.

(** [envIndicesByName] after [environments.forEach((env, i) => ...)]. *)
Definition envIndicesByName (envs : list NetSuiteAuthAccountInfo)
  (envList : list string) : gmap string nat :=
  foldl (λ m ie, if bool_decide (name ie.2 ∈ envList) then <[name ie.2 := ie.1]> m else m)
        ∅ (imap pair envs).

(** The body of [for (let line of lines)] in [loadEnvironmentDetails]. *)
Definition infoStep (envInfo : NetSuiteAuthAccountInfo) (line : string)
  : NetSuiteAuthAccountInfo :=
  match split ":" line with
  | [k; v] =>
      let key := trim k in
      let val := trim v in
      let envInfo := setField key val envInfo in
      if bool_decide (key = "Account Type") then setField "type" val envInfo else envInfo
  | _ => envInfo
  end.

(** The [envInfo] built from the output of the [--info] command. *)
Definition parseEnvInfo (envName stdout : string) : NetSuiteAuthAccountInfo :=
  foldl infoStep (nameOnly envName) (map cleanLine (split LF (trim stdout))).

(** [environments[envIndicesByName[envName]] = envInfo]; an index is
    always that of an existing element, and with no index for the name
    the assignment leaves the elements as they are. *)
Definition storeEnvInfo (idx : gmap string nat) (envName : string)
  (envInfo : NetSuiteAuthAccountInfo) : M unit :=
  match idx !! envName with
  | Some i => modify (setEnvironments (<[i := envInfo]>))
  | None => ret tt
  end.

(** [for (let envName of envList)] in [loadEnvironmentDetails]. *)
Fixpoint fetchDetails (idx : gmap string nat) (envList : list string) : M unit :=
  match envList with
  | [] => ret tt
  | envName :: rest =>
      stdout <- execPromise (INFO_COMMAND +:+ envName) ;;
      storeEnvInfo idx envName (parseEnvInfo envName stdout) ;;
      fetchDetails idx rest
  end.

(** [loadEnvironmentDetails] *)
Definition loadEnvironmentDetails (envList : list string) : M unit :=
  envs <- gets environments ;;
  fetchDetails (envIndicesByName envs envList) envList ;;
  spawn (updateStatusBarItem None).

(** The statements of the [try] block of [loadNetSuiteEnvironments] that
    follow the command: parse, report, merge, start the backfill. *)
Definition refreshCatalog (stdout : string) : M unit :=
  let envList := getNetSuiteEnvironments stdout in
  (if bool_decide (length envList = 0)
   then showErrorMessage MsgNoEnvironmentsFound ;; hide
   else ret tt) ;;
  old <- gets environments ;;
  let merged := mergeEnvironments old envList in
  modify (setEnvironments (λ _, merged.1)) ;;
  showInformationMessage (MsgRetrieved (length envList)) ;;
  if bool_decide (0 < length merged.2)
  then spawn (loadEnvironmentDetails merged.2)
  else ret tt.

(** [loadNetSuiteEnvironments] *)
Definition loadNetSuiteEnvironments : M unit :=
  tryCatch
    (stdout <- execPromise LIST_COMMAND ;; refreshCatalog stdout)
    (showErrorMessage MsgErrorRetrieving).

(** [onProjectJsonFileChanged] *)
Definition onProjectJsonFileChanged (projectJsonFile : string) (env : option string)
  : M unit :=
  fileContents <- readFile projectJsonFile ;;
  fileContentsJSON <- JSON_parse fileContents ;;
  fileContentsJSON <-
    (if truthyString env
     then liftResult (setProp fileContentsJSON DEFAULT_AUTH_ID (JStr (default "" env)))
     else ret fileContentsJSON) ;;
  marker <- liftResult (getProp fileContentsJSON LAST_MODIFIED) ;;
  (if negb (truthy marker) then spawn loadNetSuiteEnvironments else ret tt) ;;
  if truthyString env then
    h <- gets host ;;
    fileContentsJSON <-
      liftResult (setProp fileContentsJSON LAST_MODIFIED
                    (JStr (Date.toISOString (clock h)))) ;;
    writeFile projectJsonFile fileContentsJSON
  else ret tt.

(** The part of [handleSelectEnvironment] before the picker: the list to
    present and the placeholder. *)
Definition buildSelection (projectJsonFile : string)
  (environments : list NetSuiteAuthAccountInfo) (ignoreFilter : bool)
  : M (list NetSuiteAuthAccountInfo * string) :=
  if ignoreFilter then ret (environments, "")
  else
    configFile <- getSuiteCloudConfig projectJsonFile ;;
    sel <-
      match configFile with
      | Some path =>
          h <- gets host ;;
          match requireFresh h path with
          | None => throw
          | Some moduleExports =>
              if truthyString (authIdFilter moduleExports) then
                let pattern := default "" (authIdFilter moduleExports) in
                match newRegExp h pattern with
                | None => throw
                | Some test =>
                    ret (filter (λ val, test (name val) = true) environments,
                         "Filter: " +:+ pattern)
                end
              else ret (environments, "")
          end
      | None => ret (environments, "")
      end ;;
    (if bool_decide (length sel.1 = 0)
     then showErrorMessage MsgNoEnvironmentsToSelect
     else ret tt) ;;
    ret (if bool_decide (length sel.1 < length environments)
         then sel.1 ++ [nameOnly MSG_SHOW_ALL_ENVIRONMENTS]
         else sel.1,
         sel.2).

(** What follows the choice of a real environment. *)
Definition switchTo (projectJsonFile env : string) : M unit :=
  modify (setCache (<[projectJsonFile := Some (JStr env)]>)) ;;
  spawn (updateStatusBarItem None) ;;
  onProjectJsonFileChanged projectJsonFile (Some env) ;;
  h <- gets host ;;
  showInformationMessage
    (MsgSwitched (folderName <$> getWorkspaceFolder h projectJsonFile) env).

(** [handleSelectEnvironment].  [picks] holds what the user answers to
    the pickers this call and the calls it makes show, in turn: [None]
    when the picker is dismissed.  With no answer left the picker stays
    open and the function does not go on. *)
Fixpoint handleSelectEnvironment (picks : list (option string))
  (projectJsonFile : string) (environments : list NetSuiteAuthAccountInfo)
  (ignoreFilter : bool) {struct picks} : M unit :=
  tryCatch
    (sel <- buildSelection projectJsonFile environments ignoreFilter ;;
     emit (EvQuickPick (map name sel.1) sel.2) ;;
     match picks with
     | [] => ret tt
     | env :: later =>
         if negb (truthyString env) then ret tt
         else if bool_decide (env = Some MSG_SHOW_ALL_ENVIRONMENTS)
         then spawn (handleSelectEnvironment later projectJsonFile environments true)
         else switchTo projectJsonFile (default "" env)
     end)
    (showErrorMessage MsgUnexpected).

(** The listener given to [onDidChange] of the file system watcher. *)
Definition onDidChange (projectJsonFile : string) : M unit :=
  modify (setCache (delete projectJsonFile)) ;;
  spawn (updateStatusBarItem (Some projectJsonFile)) ;;
  spawn (onProjectJsonFileChanged projectJsonFile None).

(** The listener given to [onDidChangeActiveTextEditor]. *)
Definition onDidChangeActiveTextEditor (editor : bool) : M unit :=
  if editor then spawn (updateStatusBarItem None) else ret tt.

(** The handler registered for [COMMAND_ID]. *)
Definition selectEnvironmentCommand (picks : list (option string)) : M unit :=
  projectJsonFile <- findNearestProjectJsonFile None ;;
  match projectJsonFile with
  | Some f =>
      envs <- gets environments ;;
      spawn (handleSelectEnvironment picks f envs false)
  | None => showErrorMessage MsgNoProjectJsonInProject
  end.

(** [activate]; the result tells whether the listeners and the command
    were registered. *)
Definition activate : M bool :=
  h <- gets host ;;
  if bool_decide (length (findProjectFiles h) = 0) then
    showErrorMessage MsgNoProjectJsonInWorkspace ;; ret false
  else
    createStatusBarItem ;;
    loadNetSuiteEnvironments ;;
    envs <- gets environments ;;
    if bool_decide (length envs = 0) then ret false
    else spawn (updateStatusBarItem None) ;; ret true.

(** ** Vocabulary of the statements *)

(** The events a run of [m] from [w] adds to the trace. *)
Definition eventsOf {A} (m : M A) (w : World) : list Event :=
  drop (length (trace w)) (trace (m w).2).

(** Every run of [m] takes a world to one related to it by [R]. *)
Definition preserves (R : relation World) {A} (m : M A) : Prop :=
  ∀ w, R w (m w).2.

(** The trace only grows, by events that satisfy [Q]. *)
Definition extends (Q : Event → Prop) : relation World :=
  λ w w', ∃ evs, trace w' = trace w ++ evs ∧ Forall Q evs.

Definition sameHost : relation World := λ w w', host w' = host w.

Definition sameFiles : relation World := λ w w', files w' = files w.

Definition sameCache : relation World :=
  λ w w', defaultAuthIdsByProjectJson w' = defaultAuthIdsByProjectJson w.

(** A value cached for [path] (other than [undefined]) stays cached. *)
Definition hitStable (path : string) : relation World :=
  λ w w', ∀ v, defaultAuthIdsByProjectJson w !! path = Some (Some v) →
               defaultAuthIdsByProjectJson w' !! path = Some (Some v).

Definition isWrite (e : Event) : bool :=
  match e with EvWriteFile _ _ => true | _ => false end.

(** Events of [updateStatusBarItem]: file reads and error messages. *)
Definition isQuiet (e : Event) : bool :=
  match e with EvReadFile _ | EvError _ => true | _ => false end.

(** The project of [projectJsonFile] has exactly one
    [suitecloud.config.js], whose [authIdFilter] is the non-empty
    [pattern], a regular expression with matcher [test]. *)
Definition hasFilter (h : Host) (projectJsonFile pattern : string)
  (test : string → bool) : Prop :=
  ∃ workspaceFolder configFile,
    getWorkspaceFolder h projectJsonFile = Some workspaceFolder
    ∧ findFiles h workspaceFolder "suitecloud.config.js" = [configFile]
    ∧ requireFresh h configFile = Some {| authIdFilter := Some pattern |}
    ∧ pattern ≠ ""
    ∧ newRegExp h pattern = Some test.

(** [j2] is a document to which [defaultAuthId = env] and then the time
    stamp were assigned, as [onProjectJsonFileChanged] does before it
    writes. *)
Definition stamped (env : string) (j2 : json) : Prop :=
  ∃ j j1 t,
    setProp j DEFAULT_AUTH_ID (JStr env) = Ok j1
    ∧ setProp j1 LAST_MODIFIED (JStr (Date.toISOString t)) = Ok j2.

(** [n] change notifications for the same state file, one after the
    other. *)
Fixpoint notifications (n : nat) (projectJsonFile : string) : M unit :=
  match n with
  | O => ret tt
  | S k => onDidChange projectJsonFile ;; notifications k projectJsonFile
  end.

(** ** Example worlds *)

(** [new RegExp(source, 'i')] for a source made of letters and digits
    only: the test is a search for [source] up to case. *)
Definition literalRegExp (source : string) : option (string → bool) :=
  Some (λ s, includes (toLowerCase source) (toLowerCase s)).

Definition demoFolder : WorkspaceFolder :=
  {| folderPath := "/ws"; folderName := "ws" |}.

Definition demoProject : string := "/ws/project.json".

(** One workspace folder [/ws] with its [project.json]; a
    [suitecloud.config.js] exporting [authIdFilter] when [filter] is
    given; the command line answers [stdout cmd]. *)
Definition demoHost (stdout : string → option string) (filter : option string) : Host :=
  {| exec := stdout;
     getWorkspaceFolder := λ _, Some demoFolder;
     findFiles := λ _ fileName,
       if bool_decide (fileName = "project.json") then [demoProject]
       else match filter with
            | Some _ => ["/ws/suitecloud.config.js"]
            | None => []
            end;
     findProjectFiles := [demoProject];
     activeTextEditor := Some "/ws/src/script.js";
     requireFresh := λ _, Some {| authIdFilter := filter |};
     newRegExp := literalRegExp;
     clock := 1793660215123 |}.

Definition demoWorld (h : Host) (doc : json)
  (envs : list NetSuiteAuthAccountInfo) : World :=
  {| host := h;
     files := {[ demoProject := Parsed doc ]};
     environments := envs;
     defaultAuthIdsByProjectJson := ∅;
     projectJsonFilesByWorkspaceFolder := ∅;
     statusBarItem := {| text := TextNone; color := None; visible := false |};
     trace := [] |}.

Definition noCommandLine : string → option string := λ _, None.

(** Two environments known by name only, and a state file that an
    external tool wrote. *)
Definition demoEnvironments : list NetSuiteAuthAccountInfo :=
  [nameOnly "sandbox1"; nameOnly "production"].

Definition externalDoc : gmap string json :=
  {[ DEFAULT_AUTH_ID := JStr "production"; "note" := JStr "keep me" ]}.

(** The same file after the engine set [sandbox1] at [clock]. *)
Definition engineDoc : gmap string json :=
  <[LAST_MODIFIED := JStr "2026-11-02T22:56:55.123Z"]>
    (<[DEFAULT_AUTH_ID := JStr "sandbox1"]> externalDoc).

(** A state file whose marker is present and empty. *)
Definition emptyMarkerDoc : gmap string json :=
  {[ DEFAULT_AUTH_ID := JStr "production"; LAST_MODIFIED := JStr "" ]}.

(** A state file without [defaultAuthId]. *)
Definition noAuthIdDoc : gmap string json := {[ "note" := JStr "keep me" ]}.

(** A catalog in which a real environment bears the name of the
    synthetic entry. *)
Definition clashingEnvironments : list NetSuiteAuthAccountInfo :=
  [nameOnly "sandbox1"; nameOnly MSG_SHOW_ALL_ENVIRONMENTS].

(** The catalog once the details of [envName] are stored, when the
    detail command succeeds for it. *)
Definition storeDetails (h : Host) (idx : gmap string nat)
  (envs : list NetSuiteAuthAccountInfo) (envName : string)
  : list NetSuiteAuthAccountInfo :=
  match idx !! envName, exec h (INFO_COMMAND +:+ envName) with
  | Some i, Some stdout => <[i := parseEnvInfo envName stdout]> envs
  | _, _ => envs
  end.

(** The detail command fails for [a] and answers for [b]. *)
Definition failsForA (cmd : string) : option string :=
  if bool_decide (cmd = INFO_COMMAND +:+ "b")
  then Some ("Account ID: 123456_SB1" +:+ LF +:+ "Account Type: Sandbox")
  else None.

Definition answersAll (cmd : string) : option string :=
  if bool_decide (cmd = LIST_COMMAND) then Some ("a | 1" +:+ LF +:+ "b | 2")
  else Some ("Account ID: 123456_SB1" +:+ LF +:+ "Account Type: Sandbox").

Definition abCatalog : list NetSuiteAuthAccountInfo := [nameOnly "a"; nameOnly "b"].

(** Two environments with their details. *)
Definition detailedA : NetSuiteAuthAccountInfo :=
  setField "type" "Sandbox" (setField "Account Type" "Sandbox" (nameOnly "A")).

Definition detailedB : NetSuiteAuthAccountInfo :=
  setField "type" "Production" (setField "Account Type" "Production" (nameOnly "B")).

(** Whether the merge queues [envName] for the backfill. *)
Definition queued (byName : gmap string NetSuiteAuthAccountInfo) (envName : string) : bool :=
  match byName !! envName with
  | None => true
  | Some existing => hasNoDetails existing
  end.

(** The list command succeeds and prints nothing; the detail command
    fails. *)
Definition printsNothing (cmd : string) : option string :=
  if bool_decide (cmd = LIST_COMMAND) then Some "" else None.

Definition ESC : string := String "027" "".

(** ** Further vocabulary *)

(** [w'] is [w] with another trace: no variable, file or indicator
    changed. *)
Definition onlyTraced : relation World :=
  λ w w',
    host w' = host w ∧ files w' = files w ∧ environments w' = environments w
    ∧ defaultAuthIdsByProjectJson w' = defaultAuthIdsByProjectJson w
    ∧ projectJsonFilesByWorkspaceFolder w' = projectJsonFilesByWorkspaceFolder w
    ∧ statusBarItem w' = statusBarItem w.

Definition sameEnvironments : relation World :=
  λ w w', environments w' = environments w.

(** The catalog keeps its length, and the entries that stood in
    [envs0] under a name outside [envList] are where they were. *)
Definition inPlace (envs0 : list NetSuiteAuthAccountInfo) (envList : list string)
  : relation World :=
  λ w w',
    length (environments w') = length (environments w)
    ∧ ∀ i e, envs0 !! i = Some e → name e ∉ envList →
             environments w !! i = Some e → environments w' !! i = Some e.

(** The number of occurrences of the character [c] in [s]. *)
Fixpoint countChar (c : ascii) (s : string) : nat :=
  match s with
  | "" => 0
  | String x s' => (if bool_decide (x = c) then 1 else 0) + countChar c s'
  end.

(** No character of [s] is in [[\u0000-\u001F\u007F-\u009F]]. *)
Fixpoint noControl (s : string) : bool :=
  match s with
  | "" => true
  | String c s' => negb (isControl c) && noControl s'
  end.

Definition COLON : ascii := ":"%char.

(** ** Further example worlds *)

Definition otherProject : string := "/other/project.json".

(** The state file says [sandbox1]; the cache still says [production]
    for it, and holds a value for the state file of another folder. *)
Definition staleCacheWorld : World :=
  setCache (λ _, {[ demoProject := Some (JStr "production");
                    otherProject := Some (JStr "qa") ]})
    (demoWorld (demoHost noCommandLine None) (JObj engineDoc) demoEnvironments).

(** The world in which the file search answers [g] and all else is as
    in [w]. *)
Definition withFindFiles (g : WorkspaceFolder → string → list string) (w : World) : World :=
  {| host := {| exec := exec (host w);
                getWorkspaceFolder := getWorkspaceFolder (host w);
                findFiles := g;
                findProjectFiles := findProjectFiles (host w);
                activeTextEditor := activeTextEditor (host w);
                requireFresh := requireFresh (host w);
                newRegExp := newRegExp (host w);
                clock := clock (host w) |};
     files := files w; environments := environments w;
     defaultAuthIdsByProjectJson := defaultAuthIdsByProjectJson w;
     projectJsonFilesByWorkspaceFolder := projectJsonFilesByWorkspaceFolder w;
     statusBarItem := statusBarItem w; trace := trace w |}.

(** The project of [projectJsonFile] asks for no filter: it has no
    workspace folder, or no [suitecloud.config.js], or one that exports
    no truthy [authIdFilter]. *)
Definition unfiltered (h : Host) (projectJsonFile : string) : Prop :=
  match getWorkspaceFolder h projectJsonFile with
  | None => True
  | Some workspaceFolder =>
      match findFiles h workspaceFolder "suitecloud.config.js" with
      | [] => True
      | [configFile] =>
          ∃ moduleExports,
            requireFresh h configFile = Some moduleExports
            ∧ truthyString (authIdFilter moduleExports) = false
      | _ => False
      end
  end.

(** The project has exactly one [suitecloud.config.js] and it cannot be
    used: loading it throws, or its [authIdFilter] is not a regular
    expression. *)
Definition brokenFilter (h : Host) (projectJsonFile : string) : Prop :=
  ∃ workspaceFolder configFile,
    getWorkspaceFolder h projectJsonFile = Some workspaceFolder
    ∧ findFiles h workspaceFolder "suitecloud.config.js" = [configFile]
    ∧ (requireFresh h configFile = None
       ∨ ∃ pattern,
           requireFresh h configFile = Some {| authIdFilter := Some pattern |}
           ∧ pattern ≠ ""
           ∧ newRegExp h pattern = None).

(** No pattern that has an opening parenthesis compiles; the others
    are searched for as they are. *)
Definition strictRegExp (source : string) : option (string → bool) :=
  if includes "(" source then None else literalRegExp source.

(** The host of the examples with [strictRegExp] for [new RegExp]. *)
Definition strictHost (filter : option string) : Host :=
  {| exec := noCommandLine;
     getWorkspaceFolder := getWorkspaceFolder (demoHost noCommandLine filter);
     findFiles := findFiles (demoHost noCommandLine filter);
     findProjectFiles := [demoProject];
     activeTextEditor := Some "/ws/src/script.js";
     requireFresh := requireFresh (demoHost noCommandLine filter);
     newRegExp := strictRegExp;
     clock := 0 |}.

(** A workspace without any [project.json]. *)
Definition emptyWorkspaceHost : Host :=
  {| exec := noCommandLine;
     getWorkspaceFolder := λ _, None;
     findFiles := λ _ _, [];
     findProjectFiles := [];
     activeTextEditor := None;
     requireFresh := λ _, None;
     newRegExp := literalRegExp;
     clock := 0 |}.

(** The list command names [A] and [B]; their details are known. *)
Definition listsAB (cmd : string) : option string :=
  if bool_decide (cmd = LIST_COMMAND)
  then Some ("A | 111 | Developer" +:+ LF +:+ "B | 222 | Administrator" +:+ LF)
  else None.

(** ** The active project ([multiProject.ts]) *)

Module MultiProject.

(** The platform decides [path.sep]. *)
Inductive Platform : Type := Posix | Win32.

Definition sepChar (p : Platform) : ascii :=
  match p with
  | Posix => "/"%char
  | Win32 => "\"%char
  end.

(** [path.sep] *)
Definition sep (p : Platform) : string := String (sepChar p) "".

Definition DEFAULT_PROJECT_FOLDER : string := "defaultProjectFolder".


(** [filePathArray] in [handleChangeActiveTextEditor]:
    [activeFile.replace(workspaceRoot, "").split(path.sep)]. *)
Definition filePathArray (p : Platform) (workspaceRoot activeFile : string) : list string :=
  split (sep p) (replaceFirst workspaceRoot "" activeFile).

(** [handleChangeActiveTextEditor].  [editor] is the [fileName] of the
    document of the editor, [None] without an editor; [workspaceRoot] is
    [vscode.workspace.workspaceFolders?.[0].uri.fsPath || ""].  The file
    is written with [JSON.stringify(fileContentsJSON)].  Nothing is
    caught: a failing read or parse rejects. *)
Definition handleChangeActiveTextEditor (p : Platform) (workspaceRoot : string)
  (editor : option string) (activeProjectJsonFile : string) : M unit :=
  match editor with
  | None => ret tt
  | Some activeFile =>
      let filePathArray := filePathArray p workspaceRoot activeFile in
      if bool_decide (filePathArray !! 1 ≠ Some "src") then ret tt
      else
        fileContents <- readFile activeProjectJsonFile ;;
        fileContentsJSON <- JSON_parse fileContents ;;
        fileContentsJSON <-
          liftResult (setProp fileContentsJSON DEFAULT_PROJECT_FOLDER
                        (JStr ("src/" +:+ default "undefined" (filePathArray !! 2)))) ;;
        writeFile activeProjectJsonFile fileContentsJSON
  end.

End MultiProject.

(** A workspace [/ws] whose [activeProject.json] names the project
    [Old]. *)
Definition activeProjectFile : string := "/ws/activeProject.json".

Definition activeProjectDoc : gmap string json :=
  {[ MultiProject.DEFAULT_PROJECT_FOLDER := JStr "src/Old"; "note" := JStr "keep me" ]}.

Definition activeProjectWorld : World :=
  setFiles (<[activeProjectFile := Parsed (JObj activeProjectDoc)]>)
    (demoWorld (demoHost noCommandLine None) (JObj externalDoc) []).

(** * Properties *)

(** ** Strings *)

Example split_lines :
  split LF ("a" +:+ LF +:+ "b" +:+ LF) = ["a"; "b"; ""].
Proof. reflexivity. Qed.

Example split_fields :
  split " | " "sandbox1 | 123 | Admin" = ["sandbox1"; "123"; "Admin"].
Proof. reflexivity. Qed.

Example trim_both : trim "  a b  " = "a b".
Proof. reflexivity. Qed.

Example replace_once :
  replaceFirst "[2K[1G" "" "[2K[1Gab[2K[1G" = "ab[2K[1G".
Proof. reflexivity. Qed.

Example toISOString_epoch : Date.toISOString 0 = "1970-01-01T00:00:00.000Z".
Proof. reflexivity. Qed.

Example toISOString_leap_day :
  Date.toISOString 951782400000 = "2000-02-29T00:00:00.000Z".
Proof. vm_compute. reflexivity. Qed.

Lemma startsWith_spec p s :
  startsWith p s = true ↔ ∃ r, s = p +:+ r.
Proof.
  revert s. induction p as [|a p IH]; intros s; simpl.
  - split; [intros _; by exists s | done].
  - destruct s as [|b s]; simpl.
    + split; [done | intros [r Hr]; discriminate].
    + rewrite andb_true_iff, bool_decide_eq_true, IH. split.
      * intros [-> [r ->]]. by exists r.
      * intros [r Hr]. injection Hr as -> ->. split; [done | by exists r].
Qed.

Lemma includes_spec sub s :
  includes sub s = true ↔ ∃ a b, s = a +:+ sub +:+ b.
Proof.
  induction s as [|c s IH].
  - cbn [includes]. rewrite orb_false_r, startsWith_spec. split.
    + intros [r Hr]. by exists "", r.
    + intros [a [b Hab]]. destruct a as [|x a]; [by exists b | discriminate].
  - cbn [includes]. rewrite orb_true_iff, startsWith_spec, IH. split.
    + intros [[r Hr] | [a [b Hab]]].
      * by exists "", r.
      * exists (String c a), b. simpl. by rewrite Hab.
    + intros [a [b Hab]]. destruct a as [|x a].
      * left. by exists b.
      * right. simpl in Hab. injection Hab as -> ->. by exists a, b.
Qed.

Lemma toLowerCase_app a b :
  toLowerCase (a +:+ b) = toLowerCase a +:+ toLowerCase b.
Proof. induction a as [|c a IH]; simpl; [done | by rewrite IH]. Qed.


Lemma app_eq_lower_split (s x y : string) :
  toLowerCase s = x +:+ y →
  ∃ a b, s = a +:+ b ∧ toLowerCase a = x ∧ toLowerCase b = y.
Proof.
  revert s. induction x as [|c x IH]; intros s H; simpl in H.
  - by exists "", s.
  - destruct s as [|d s]; simpl in H; [discriminate |].
    injection H as Hc Hs. destruct (IH _ Hs) as (a & b & -> & Ha & Hb).
    exists (String d a), b. simpl. by rewrite Hc, Ha, Hb.
Qed.

(** [s.toLowerCase().startsWith(p)]: some prefix of [s] is [p] up to
    case. *)
Lemma startsWith_lower_spec p s :
  startsWith p (toLowerCase s) = true ↔
  ∃ pre rest, s = pre +:+ rest ∧ toLowerCase pre = p.
Proof.
  rewrite startsWith_spec. split.
  - intros [r Hr]. destruct (app_eq_lower_split _ _ _ Hr) as (a & b & -> & Ha & _).
    by exists a, b.
  - intros (pre & rest & -> & <-). exists (toLowerCase rest). apply toLowerCase_app.
Qed.

(** [s.toLowerCase().includes(sub)]: some part of [s] is [sub] up to
    case. *)
Lemma includes_lower_spec sub s :
  includes sub (toLowerCase s) = true ↔
  ∃ a m b, s = a +:+ m +:+ b ∧ toLowerCase m = sub.
Proof.
  rewrite includes_spec. split.
  - intros (x & y & Hxy).
    destruct (app_eq_lower_split _ _ _ Hxy) as (a & r & -> & _ & Hr).
    destruct (app_eq_lower_split _ _ _ Hr) as (m & b & -> & Hm & _).
    by exists a, m, b.
  - intros (a & m & b & -> & <-). exists (toLowerCase a), (toLowerCase b).
    by rewrite !toLowerCase_app.
Qed.

(** ** Classification *)

Example isProd_fallback_scenario :
  isProd [nameOnly "sandbox1"; nameOnly "production"] "production" = true
  ∧ isProd [nameOnly "sandbox1"; nameOnly "production"] "sandbox1" = false.
Proof. by vm_compute. Qed.

(** C2.  When the catalog record found for the name has an account
    identifier that starts with "tstdrv" up to case, [isProd] answers
    false whatever the record's account type and the name are; when the
    catalog has no record for the name, [isProd] answers true exactly
    when the name contains "prod" up to case. *)
Theorem isProd_classification (envs : list NetSuiteAuthAccountInfo) (authId : string) :
  (∀ accInfo accountId,
     accInfoOf envs authId = Some accInfo →
     props accInfo !! "Account ID" = Some accountId →
     (∃ pre rest, accountId = pre +:+ rest ∧ toLowerCase pre = "tstdrv") →
     isProd envs authId = false)
  ∧ (accInfoOf envs authId = None →
     (isProd envs authId = true ↔
      ∃ a m b, authId = a +:+ m +:+ b ∧ toLowerCase m = "prod")).
Proof.
  split.
  - intros accInfo accountId Hacc Hid Hpre.
    apply startsWith_lower_spec in Hpre.
    unfold isProd. case_bool_decide; [done |].
    rewrite Hacc. cbn [mbind option_bind]. rewrite Hid.
    change (default "" (Some accountId)) with accountId. by rewrite Hpre.
  - intros Hnone. rewrite <- includes_lower_spec.
    unfold isProd. rewrite Hnone. cbn [mbind option_bind].
    change (default "" None) with "".
    case_bool_decide as Hempty; [subst; by vm_compute |].
    change (startsWith "tstdrv" (toLowerCase "")) with false. cbv iota.
    by case_bool_decide.
Qed.

Lemma isProd_classification_witness :
  isProd [setField "type" "Production" (setField "Account ID" "TSTDRV1234567" (nameOnly "demo prod"))]
         "demo prod" = false
  ∧ (isProd [] "My-PROD-account" = true ↔
     ∃ a m b, "My-PROD-account" = a +:+ m +:+ b ∧ toLowerCase m = "prod").
Proof.
  split.
  - eapply (proj1 (isProd_classification _ _)).
    + reflexivity.
    + reflexivity.
    + exists "TSTDRV", "1234567". split; reflexivity.
  - apply (proj2 (isProd_classification [] "My-PROD-account")). reflexivity.
Defined.

(** ** The monad: composition of preserved relations *)

Section Preserves.
Context (R : relation World) `{!PreOrder R}.

Lemma preserves_ret {A} (a : A) : preserves R (ret a).
Proof. intros w. reflexivity. Qed.

Lemma preserves_throw {A} : preserves R (@throw A).
Proof. intros w. reflexivity. Qed.

Lemma preserves_gets {A} (f : World → A) : preserves R (gets f).
Proof. intros w. reflexivity. Qed.

Lemma preserves_liftResult {A} (r : Result A) : preserves R (liftResult r).
Proof. intros w. reflexivity. Qed.

Lemma preserves_bind {A B} (m : M A) (k : A → M B) :
  preserves R m → (∀ a, preserves R (k a)) → preserves R (bind m k).
Proof.
  intros Hm Hk w. unfold bind. specialize (Hm w).
  destruct (m w) as [[a|] w1]; simpl in *; [|done].
  etrans; [exact Hm | apply Hk].
Qed.

(** The continuation may rely on what [m] is known to return. *)
Lemma preserves_bind_val {A B} (m : M A) (k : A → M B) (P : A → Prop) :
  preserves R m → (∀ w a, (m w).1 = Ok a → P a) →
  (∀ a, P a → preserves R (k a)) → preserves R (bind m k).
Proof.
  intros Hm HP Hk w. unfold bind. specialize (Hm w). specialize (HP w).
  destruct (m w) as [[a|] w1]; simpl in *; [|done].
  etrans; [exact Hm | by apply Hk, HP].
Qed.

Lemma preserves_tryCatch {A} (m h : M A) :
  preserves R m → preserves R h → preserves R (tryCatch m h).
Proof.
  intros Hm Hh w. unfold tryCatch. specialize (Hm w).
  destruct (m w) as [[a|] w1]; simpl in *; [done |].
  etrans; [exact Hm | apply Hh].
Qed.

Lemma preserves_spawn {A} (m : M A) : preserves R m → preserves R (spawn m).
Proof. intros Hm w. apply Hm. Qed.

Lemma preserves_modify (f : World → World) :
  (∀ w, R w (f w)) → preserves R (modify f).
Proof. intros Hf w. apply Hf. Qed.

Lemma preserves_JSON_parse c : preserves R (JSON_parse c).
Proof. destruct c; [apply preserves_throw | apply preserves_ret]. Qed.
End Preserves.

#[local] Instance extends_preorder Q : PreOrder (extends Q).
Proof.
  split.
  - intros w. exists []. by rewrite app_nil_r.
  - intros w1 w2 w3 (e1 & H1 & F1) (e2 & H2 & F2). exists (e1 ++ e2).
    rewrite H2, H1, app_assoc. split; [done | by apply Forall_app].
Qed.

#[local] Instance sameHost_preorder : PreOrder sameHost.
Proof. split; [done | intros w1 w2 w3 H1 H2; unfold sameHost in *; congruence]. Qed.

#[local] Instance sameFiles_preorder : PreOrder sameFiles.
Proof. split; [done | intros w1 w2 w3 H1 H2; unfold sameFiles in *; congruence]. Qed.

#[local] Instance sameCache_preorder : PreOrder sameCache.
Proof. split; [done | intros w1 w2 w3 H1 H2; unfold sameCache in *; congruence]. Qed.

#[local] Instance hitStable_preorder p : PreOrder (hitStable p).
Proof. split; [by intros w v | intros w1 w2 w3 H1 H2 v Hv; by apply H2, H1]. Qed.


Lemma preserves_weaken (R R' : relation World) {A} (m : M A) :
  (∀ w w', R w w' → R' w w') → preserves R m → preserves R' m.
Proof. intros HR Hm w. apply HR, Hm. Qed.

Lemma extends_eventsOf Q {A} (m : M A) w :
  extends Q w (m w).2 → trace (m w).2 = trace w ++ eventsOf m w ∧ Forall Q (eventsOf m w).
Proof.
  intros (evs & Ht & HF). unfold eventsOf. rewrite Ht, drop_app_length. done.
Qed.

(** ** What each function adds to the trace *)

Lemma extends_emit Q e : Q e → preserves (extends Q) (emit e).
Proof. intros He w. exists [e]. split; [done | by constructor]. Qed.

Lemma extends_silent Q (f : World → World) :
  (∀ w, trace (f w) = trace w) → preserves (extends Q) (modify f).
Proof. intros Hf w. exists []. simpl. by rewrite Hf, app_nil_r. Qed.

(** Strips one layer of monadic structure off a [preserves] goal. *)
Ltac pres_step :=
  lazymatch goal with
  | |- preserves _ (bind _ _) => apply preserves_bind; [tc_solve | | intros ?]
  | |- preserves _ (tryCatch _ _) => apply preserves_tryCatch; [tc_solve | |]
  | |- preserves _ (spawn _) => apply preserves_spawn
  | |- preserves _ (ret _) => apply preserves_ret; tc_solve
  | |- preserves _ throw => apply preserves_throw; tc_solve
  | |- preserves _ (gets _) => apply preserves_gets; tc_solve
  | |- preserves _ (liftResult _) => apply preserves_liftResult; tc_solve
  | |- preserves _ (JSON_parse _) => apply preserves_JSON_parse; tc_solve
  | |- preserves (extends _) (emit _) => apply extends_emit
  | |- preserves (extends _) (showErrorMessage _) => apply extends_emit
  | |- preserves (extends _) (showInformationMessage _) => apply extends_emit
  | |- preserves (extends _) (modify _) => by apply extends_silent
  | |- preserves _ (modify _) => apply preserves_modify; intros ?
  | |- preserves _ (emit _) => apply preserves_modify; intros ?
  | |- preserves _ (showErrorMessage _) => apply preserves_modify; intros ?
  | |- preserves _ (showInformationMessage _) => apply preserves_modify; intros ?
  | |- preserves _ hide => unfold hide
  | |- preserves _ show => unfold show
  | |- preserves _ (setText _) => unfold setText
  | |- preserves _ (setColor _) => unfold setColor
  | |- preserves _ createStatusBarItem => unfold createStatusBarItem
  | |- preserves _ (match ?x with _ => _ end) => destruct x eqn:?
  end.

Ltac pres := repeat pres_step.

Section Traces.
Context (Q : Event → Prop).

Lemma execPromise_extends cmd :
  Q (EvExec cmd) → preserves (extends Q) (execPromise cmd).
Proof. intros H. unfold execPromise. pres. done. Qed.

Lemma readFile_extends path :
  Q (EvReadFile path) → preserves (extends Q) (readFile path).
Proof. intros H. unfold readFile. pres. done. Qed.

Lemma writeFile_extends path j :
  Q (EvWriteFile path j) → preserves (extends Q) (writeFile path j).
Proof. intros H. unfold writeFile. pres. done. Qed.

Lemma findNearestProjectJsonFile_extends refFile :
  (∀ e, isQuiet e = true → Q e) →
  preserves (extends Q) (findNearestProjectJsonFile refFile).
Proof. intros H. unfold findNearestProjectJsonFile. pres. by apply H. Qed.

Lemma getSuiteCloudConfig_extends refFile :
  (∀ e, isQuiet e = true → Q e) →
  preserves (extends Q) (getSuiteCloudConfig refFile).
Proof. intros H. unfold getSuiteCloudConfig. pres. by apply H. Qed.

Lemma updateStatusBarItem_extends jsonFile :
  (∀ e, isQuiet e = true → Q e) →
  preserves (extends Q) (updateStatusBarItem jsonFile).
Proof.
  intros H. unfold updateStatusBarItem. pres;
    try (by apply findNearestProjectJsonFile_extends);
    try (apply readFile_extends; by apply H).
Qed.

Lemma fetchDetails_extends idx envList :
  (∀ e, isWrite e = false → Q e) →
  preserves (extends Q) (fetchDetails idx envList).
Proof.
  intros H. induction envList as [|envName rest IH]; simpl.
  - pres.
  - unfold storeEnvInfo. pres; try done. apply execPromise_extends. by apply H.
Qed.

Lemma loadEnvironmentDetails_extends envList :
  (∀ e, isWrite e = false → Q e) →
  preserves (extends Q) (loadEnvironmentDetails envList).
Proof.
  intros H. unfold loadEnvironmentDetails. pres.
  - by apply fetchDetails_extends.
  - apply updateStatusBarItem_extends. intros [] ?; by apply H.
Qed.

Lemma loadNetSuiteEnvironments_extends :
  (∀ e, isWrite e = false → Q e) →
  preserves (extends Q) loadNetSuiteEnvironments.
Proof.
  intros H. unfold loadNetSuiteEnvironments, refreshCatalog.
  pres; try (by apply H).
  - apply execPromise_extends. by apply H.
  - by apply loadEnvironmentDetails_extends.
Qed.

Lemma buildSelection_extends projectJsonFile envs ignoreFilter :
  (∀ e, isQuiet e = true → Q e) →
  preserves (extends Q) (buildSelection projectJsonFile envs ignoreFilter).
Proof.
  intros H. unfold buildSelection. pres; try (by apply H).
  all: by apply getSuiteCloudConfig_extends.
Qed.
End Traces.

Lemma toISOString_nonempty t : Date.toISOString t ≠ "".
Proof.
  unfold Date.toISOString. destruct (Date.civil _) as [[y m] d].
  destruct (Date.yearString y); discriminate.
Qed.

Lemma truthyString_Some env :
  truthyString env = true → ∃ s, env = Some s ∧ s ≠ "".
Proof.
  destruct env as [s|]; simpl; [|done].
  rewrite bool_decide_eq_true. eauto.
Qed.

(** A stamped object has the chosen name and a non-empty marker. *)
Lemma stamped_object env m :
  stamped env (JObj m) →
  m !! DEFAULT_AUTH_ID = Some (JStr env)
  ∧ ∃ s, m !! LAST_MODIFIED = Some (JStr s) ∧ s ≠ "".
Proof.
  intros (j & j1 & t & H1 & H2).
  destruct j; try discriminate; simpl in H1; injection H1 as <-;
    simpl in H2; try discriminate.
  injection H2 as <-. split.
  - rewrite lookup_insert_ne; [apply lookup_insert_eq | done].
  - exists (Date.toISOString t). split; [apply lookup_insert_eq | apply toISOString_nonempty].
Qed.

Section TracesOfWrites.
Context (Q : Event → Prop).

Lemma onProjectJsonFileChanged_extends path env :
  (∀ e, isWrite e = false → Q e) →
  (∀ s j2, env = Some s → s ≠ "" → stamped s j2 → Q (EvWriteFile path j2)) →
  preserves (extends Q) (onProjectJsonFileChanged path env).
Proof.
  intros H Hw. unfold onProjectJsonFileChanged.
  apply preserves_bind; [tc_solve | apply readFile_extends; by apply H | intros c].
  apply preserves_bind; [tc_solve | pres | intros j].
  destruct (truthyString env) eqn:Henv.
  - apply truthyString_Some in Henv as (s & -> & Hs).
    apply (preserves_bind_val _ _ _
             (λ j1, setProp j DEFAULT_AUTH_ID (JStr s) = Ok j1));
      [pres | by intros w a | intros j1 H1].
    apply preserves_bind; [tc_solve | pres | intros marker].
    apply preserves_bind; [tc_solve | | intros _].
    { pres. by apply loadNetSuiteEnvironments_extends. }
    apply preserves_bind; [tc_solve | pres | intros h].
    apply (preserves_bind_val _ _ _
             (λ j2, setProp j1 LAST_MODIFIED (JStr (Date.toISOString (clock h))) = Ok j2));
      [pres | by intros w a | intros j2 H2].
    apply writeFile_extends, (Hw s); [done | done |].
    by exists j, j1, (clock h).
  - pres. by apply loadNetSuiteEnvironments_extends.
Qed.

Lemma switchTo_extends path s :
  s ≠ "" →
  (∀ e, isWrite e = false → Q e) →
  (∀ j2, stamped s j2 → Q (EvWriteFile path j2)) →
  preserves (extends Q) (switchTo path s).
Proof.
  intros Hs H Hw. unfold switchTo. pres; try (by apply H).
  - apply updateStatusBarItem_extends. intros [] ?; by apply H.
  - apply onProjectJsonFileChanged_extends; [done |].
    intros s' j2 [= <-] _. apply Hw.
Qed.

Lemma handleSelectEnvironment_extends picks path envs ignoreFilter :
  (∀ e, isWrite e = false → Q e) →
  (∀ s j2, s ≠ "" → s ≠ MSG_SHOW_ALL_ENVIRONMENTS → stamped s j2 →
           Q (EvWriteFile path j2)) →
  preserves (extends Q) (handleSelectEnvironment picks path envs ignoreFilter).
Proof.
  intros H Hw. revert ignoreFilter.
  induction picks as [|env later IH]; intros ignoreFilter; simpl.
  - pres; try (by apply H).
    apply buildSelection_extends. intros [] ?; by apply H.
  - apply preserves_tryCatch; [tc_solve | | pres; by apply H].
    apply preserves_bind; [tc_solve | | intros sel].
    { apply buildSelection_extends. intros [] ?; by apply H. }
    apply preserves_bind; [tc_solve | pres; by apply H | intros _].
    destruct (truthyString env) eqn:Henv; simpl; [| pres].
    apply truthyString_Some in Henv as (s & -> & Hs).
    case_bool_decide as Hmsg.
    + pres. apply IH.
    + change (default "" (Some s)) with s.
      apply switchTo_extends; [done | done |].
      intros j2. apply Hw; [done | by intros ->].
Qed.

Lemma onDidChange_extends path :
  (∀ e, isWrite e = false → Q e) →
  preserves (extends Q) (onDidChange path).
Proof.
  intros H. unfold onDidChange. pres.
  - apply updateStatusBarItem_extends. intros [] ?; by apply H.
  - apply onProjectJsonFileChanged_extends; [done | done].
Qed.
End TracesOfWrites.

(** ** What each function leaves untouched *)

Ltac open_step :=
  lazymatch goal with
  | |- preserves _ (execPromise _) => unfold execPromise
  | |- preserves _ (readFile _) => unfold readFile
  | |- preserves _ (findNearestProjectJsonFile _) => unfold findNearestProjectJsonFile
  | |- preserves _ (getSuiteCloudConfig _) => unfold getSuiteCloudConfig
  | |- preserves _ (storeEnvInfo _ _ _) => unfold storeEnvInfo
  | |- preserves _ (buildSelection _ _ _) => unfold buildSelection
  | _ => pres_step
  end.

Ltac frame := repeat open_step; try done.


Lemma updateStatusBarItem_sameFiles jsonFile :
  preserves sameFiles (updateStatusBarItem jsonFile).
Proof. unfold updateStatusBarItem. frame. Qed.


Lemma sameCache_hitStable path w w' : sameCache w w' → hitStable path w w'.
Proof. intros H v. unfold sameCache in H. by rewrite H. Qed.

(** A cached value is never overwritten by [updateStatusBarItem]: it
    stores only after a miss. *)
Lemma updateStatusBarItem_hitStable path jsonFile :
  preserves (hitStable path) (updateStatusBarItem jsonFile).
Proof.
  unfold updateStatusBarItem.
  apply preserves_bind; [tc_solve | | intros projectJsonFile].
  { apply (preserves_weaken sameCache); [apply sameCache_hitStable |]. frame. }
  apply preserves_bind; [tc_solve | | intros d].
  - intros w v Hv. destruct projectJsonFile as [q|]; [| done].
    unfold bind at 1, gets at 1.
    destruct (mjoin (defaultAuthIdsByProjectJson w !! q)) as [c|] eqn:Hc; [done |].
    unfold readFile, bind, gets, emit, modify. simpl.
    destruct (files w !! q) as [[|j]|]; simpl; try done.
    unfold liftResult. destruct (getProp j DEFAULT_AUTH_ID) as [v'|]; simpl; try done.
    destruct (decide (q = path)) as [->|Hne].
    + rewrite Hv in Hc. discriminate.
    + by rewrite lookup_insert_ne.
  - apply (preserves_weaken sameCache); [apply sameCache_hitStable |]. frame.
Qed.

Section Frame.
Context (R : relation World) `{!PreOrder R}.
Hypothesis R_event : ∀ e w, R w (addEvent e w).
Hypothesis R_environments : ∀ f w, R w (setEnvironments f w).
Hypothesis R_statusBar : ∀ f w, R w (setStatusBar f w).
Hypothesis R_update : ∀ jsonFile, preserves R (updateStatusBarItem jsonFile).

Lemma fetchDetails_frame idx envList : preserves R (fetchDetails idx envList).
Proof.
  induction envList as [|envName rest IH]; simpl; frame.
Qed.

Lemma loadEnvironmentDetails_frame envList :
  preserves R (loadEnvironmentDetails envList).
Proof.
  unfold loadEnvironmentDetails. frame. apply fetchDetails_frame.
Qed.

Lemma loadNetSuiteEnvironments_frame : preserves R loadNetSuiteEnvironments.
Proof.
  unfold loadNetSuiteEnvironments, refreshCatalog. frame.
  apply loadEnvironmentDetails_frame.
Qed.

(** A change notification writes nothing. *)
Lemma onProjectJsonFileChanged_None_frame path :
  preserves R (onProjectJsonFileChanged path None).
Proof.
  unfold onProjectJsonFileChanged. simpl. frame.
  apply loadNetSuiteEnvironments_frame.
Qed.

End Frame.


Ltac by_frame lem upd :=
  apply lem; try tc_solve; try done; try (by intros ? ? ? ?); apply upd.



Lemma loadNetSuiteEnvironments_hitStable path :
  preserves (hitStable path) loadNetSuiteEnvironments.
Proof. by_frame loadNetSuiteEnvironments_frame updateStatusBarItem_hitStable. Qed.

Lemma onDidChange_sameFiles path : preserves sameFiles (onDidChange path).
Proof.
  unfold onDidChange. frame.
  - apply updateStatusBarItem_sameFiles.
  - by_frame onProjectJsonFileChanged_None_frame updateStatusBarItem_sameFiles.
Qed.


(** ** Self-write detection *)

Lemma tryCatch_execPromise {A} cmd (k : string → M A) (h : M A) w :
  tryCatch (bind (execPromise cmd) k) h w =
  match exec (host w) cmd with
  | Some stdout => tryCatch (k stdout) h (addEvent (EvExec cmd) w)
  | None => h (addEvent (EvExec cmd) w)
  end.
Proof.
  unfold tryCatch, bind at 1, execPromise, bind at 1.
  unfold emit, modify, bind at 1, gets. cbn [fst snd host addEvent].
  by destruct (exec (host w) cmd).
Qed.

(** The refresh starts by launching the list command. *)
Lemma loadNetSuiteEnvironments_starts w :
  ∃ evs, trace (loadNetSuiteEnvironments w).2 = trace w ++ EvExec LIST_COMMAND :: evs.
Proof.
  unfold loadNetSuiteEnvironments. rewrite tryCatch_execPromise.
  destruct (exec (host w) LIST_COMMAND) as [stdout|].
  - assert (He : preserves (extends (λ _, True))
                   (tryCatch (refreshCatalog stdout) (showErrorMessage MsgErrorRetrieving))).
    { unfold refreshCatalog. pres; try done. by apply loadEnvironmentDetails_extends. }
    destruct (He (addEvent (EvExec LIST_COMMAND) w)) as (evs & Ht & _).
    exists evs. rewrite Ht. simpl. by rewrite <- app_assoc.
  - exists [EvError MsgErrorRetrieving]. simpl. by rewrite <- app_assoc.
Qed.

Lemma eventsOf_eq {A} (m : M A) w evs :
  trace (m w).2 = trace w ++ evs → eventsOf m w = evs.
Proof. intros H. unfold eventsOf. by rewrite H, drop_app_length. Qed.

(** What [onProjectJsonFileChanged] does on a notification, by the
    marker of the document. *)
Lemma notification_step path w j :
  files w !! path = Some (Parsed j) →
  match getProp j LAST_MODIFIED with
  | Throw => trace (onProjectJsonFileChanged path None w).2 = trace w ++ [EvReadFile path]
  | Ok v =>
      if truthy v
      then trace (onProjectJsonFileChanged path None w).2 = trace w ++ [EvReadFile path]
      else ∃ evs, trace (onProjectJsonFileChanged path None w).2
                  = trace w ++ EvReadFile path :: EvExec LIST_COMMAND :: evs
  end.
Proof.
  intros Hf. unfold onProjectJsonFileChanged, readFile, bind, emit, modify, gets.
  cbn [fst snd truthyString files addEvent]. rewrite Hf.
  cbn [JSON_parse ret liftResult]. destruct (getProp j LAST_MODIFIED) as [v|]; [|done].
  destruct (truthy v); cbn [negb ret spawn snd]; [done |].
  destruct (loadNetSuiteEnvironments_starts (addEvent (EvReadFile path) w)) as (evs & He).
  exists evs. destruct (loadNetSuiteEnvironments _) as [r w2]. simpl in *.
  by rewrite He, <- app_assoc.
Qed.

(** The listener first re-reads the file for the indicator, then looks
    at the marker. *)
Lemma onDidChange_trace path w j :
  files w !! path = Some (Parsed j) →
  ∃ w1 evs1,
    trace w1 = trace w ++ evs1
    ∧ Forall (λ e, isQuiet e = true) evs1
    ∧ files w1 !! path = Some (Parsed j)
    ∧ (onDidChange path w).2 = (onProjectJsonFileChanged path None w1).2.
Proof.
  intros Hf.
  pose (w0 := setCache (delete path) w).
  exists (updateStatusBarItem (Some path) w0).2.
  destruct (updateStatusBarItem_extends (λ e, isQuiet e = true) (Some path)
              ltac:(done) w0) as (evs1 & Ht & HQ).
  exists evs1. split_and!; [done | done | | done].
  by rewrite (updateStatusBarItem_sameFiles (Some path) w0).
Qed.

Lemma notifications_quiet n path w j v :
  files w !! path = Some (Parsed j) →
  getProp j LAST_MODIFIED = Ok v → truthy v = true →
  extends (λ e, isQuiet e = true) w (notifications n path w).2.
Proof.
  intros Hf Hv Ht. revert w Hf. induction n as [|n IH]; intros w Hf; simpl.
  - reflexivity.
  - unfold bind.
    pose proof (onDidChange_sameFiles path w) as Hsame.
    destruct (onDidChange_trace path w j Hf) as (w1 & evs1 & Ht1 & HQ1 & Hf1 & Heq).
    pose proof (notification_step path w1 j Hf1) as Hstep.
    rewrite Hv, Ht, <- Heq in Hstep.
    destruct (onDidChange path w) as [[[]|] w2]; simpl in *.
    + etrans; [| apply IH; by rewrite Hsame].
      exists (evs1 ++ [EvReadFile path]).
      rewrite Hstep, Ht1, app_assoc. split; [done |].
      apply Forall_app. split; [done | by constructor].
    + exists (evs1 ++ [EvReadFile path]).
      rewrite Hstep, Ht1, app_assoc. split; [done |].
      apply Forall_app. split; [done | by constructor].
Qed.

(** C1 (amended).  Every write the selection flow makes of a document
    that is a JSON object carries the marker
    [suiteCloudPlusPlusLastModified] as a non-empty string, and the
    listener of change notifications writes no file.  On a change
    notification for a state file that parses, the catalog refresh is
    started exactly when the document is not [null] and the marker is
    missing or falsy ([null], [false], [0], the empty string).  Any
    number of notifications for a file whose marker is truthy starts no
    refresh. *)
Theorem marker_written_and_refresh_on_falsy_marker :
  (∀ picks path envs ignoreFilter w q m,
     EvWriteFile q (JObj m)
       ∈ eventsOf (handleSelectEnvironment picks path envs ignoreFilter) w →
     ∃ s, m !! LAST_MODIFIED = Some (JStr s) ∧ s ≠ "")
  ∧ (∀ path w, Forall (λ e, isWrite e = false) (eventsOf (onDidChange path) w))
  ∧ (∀ path w j,
       files w !! path = Some (Parsed j) →
       (EvExec LIST_COMMAND ∈ eventsOf (onDidChange path) w
        ↔ ∃ v, getProp j LAST_MODIFIED = Ok v ∧ truthy v = false))
  ∧ (∀ n path w j v,
       files w !! path = Some (Parsed j) →
       getProp j LAST_MODIFIED = Ok v → truthy v = true →
       EvExec LIST_COMMAND ∉ eventsOf (notifications n path) w).
Proof.
  split_and!.
  - intros picks path envs ignoreFilter w q m Hin.
    pose (Q := λ e, match e with
                    | EvWriteFile _ (JObj m) =>
                        ∃ s, m !! LAST_MODIFIED = Some (JStr s) ∧ s ≠ ""
                    | _ => True
                    end).
    assert (HQ : preserves (extends Q)
                   (handleSelectEnvironment picks path envs ignoreFilter)).
    { apply handleSelectEnvironment_extends.
      - by intros [].
      - intros s [] _ _ Hst; try done. by apply stamped_object in Hst as [_ ?]. }
    specialize (HQ w). apply extends_eventsOf in HQ as [_ HF].
    rewrite Forall_forall in HF. apply (HF _ Hin).
  - intros path w.
    pose proof (onDidChange_extends (λ e, isWrite e = false) path ltac:(done) w) as HQ.
    by apply extends_eventsOf in HQ as [_ HF].
  - intros path w j Hf.
    destruct (onDidChange_trace path w j Hf) as (w1 & evs1 & Ht1 & HQ1 & Hf1 & Heq).
    pose proof (notification_step path w1 j Hf1) as Hstep. rewrite <- Heq in Hstep.
    assert (Hno : EvExec LIST_COMMAND ∉ evs1).
    { intros Hin. rewrite Forall_forall in HQ1. by apply HQ1 in Hin. }
    destruct (getProp j LAST_MODIFIED) as [v|].
    + destruct (truthy v) eqn:Hv.
      * rewrite Ht1, <- app_assoc in Hstep. rewrite (eventsOf_eq _ _ _ Hstep).
        split.
        -- intros [Hin | Hin]%elem_of_app; [done |].
           apply list_elem_of_singleton in Hin. discriminate.
        -- intros (v' & [= <-] & Hv'). congruence.
      * destruct Hstep as (evs & Hstep).
        rewrite Ht1, <- app_assoc in Hstep. rewrite (eventsOf_eq _ _ _ Hstep).
        split; [by exists v |]. intros _.
        apply elem_of_app. right. apply list_elem_of_further, list_elem_of_here.
    + rewrite Ht1, <- app_assoc in Hstep. rewrite (eventsOf_eq _ _ _ Hstep).
      split.
      * intros [Hin | Hin]%elem_of_app; [done |].
        apply list_elem_of_singleton in Hin. discriminate.
      * by intros (v' & ? & _).
  - intros n path w j v Hf Hv Ht Hin.
    pose proof (notifications_quiet n path w j v Hf Hv Ht) as HQ.
    apply extends_eventsOf in HQ as [_ HF].
    rewrite Forall_forall in HF. by apply HF in Hin.
Qed.

(** Membership in a list of events that computes. *)
Ltac in_events :=
  lazymatch goal with
  | |- _ ∈ ?l =>
      let l' := eval vm_compute in l in
      replace l with l' by (vm_compute; reflexivity);
      repeat first [ apply list_elem_of_here | apply list_elem_of_further ]
  end.

Lemma marker_written_and_refresh_on_falsy_marker_witness :
  (∃ s, engineDoc !! LAST_MODIFIED = Some (JStr s) ∧ s ≠ "")
  ∧ Forall (λ e, isWrite e = false)
      (eventsOf (onDidChange demoProject)
         (demoWorld (demoHost noCommandLine None) (JObj externalDoc) []))
  ∧ (EvExec LIST_COMMAND
       ∈ eventsOf (onDidChange demoProject)
           (demoWorld (demoHost noCommandLine None) (JObj externalDoc) [])
     ↔ ∃ v, getProp (JObj externalDoc) LAST_MODIFIED = Ok v ∧ truthy v = false)
  ∧ EvExec LIST_COMMAND
      ∉ eventsOf (notifications 3 demoProject)
          (demoWorld (demoHost noCommandLine None) (JObj engineDoc) []).
Proof.
  destruct marker_written_and_refresh_on_falsy_marker
    as (Hwrite & Hquiet & Hnotify & Hrepeat).
  split_and!.
  - apply (Hwrite [Some "sandbox1"] demoProject demoEnvironments true
             (demoWorld (demoHost noCommandLine None) (JObj externalDoc) [])
             demoProject engineDoc).
    in_events.
  - apply Hquiet.
  - apply Hnotify. reflexivity.
  - apply (Hrepeat 3 demoProject _ (JObj engineDoc)
             (Some (JStr "2026-11-02T22:56:55.123Z"))); reflexivity.
Defined.

(** C1, as stated, fails: the marker is present in the file (as an empty
    string) and the notification still starts a refresh. *)
Lemma marker_present_refresh_counterexample :
  ¬ (EvExec LIST_COMMAND
       ∈ eventsOf (onDidChange demoProject)
           (demoWorld (demoHost noCommandLine None) (JObj emptyMarkerDoc) [])
     ↔ emptyMarkerDoc !! LAST_MODIFIED = None).
Proof.
  intros [Hrefresh _].
  assert (Hin : EvExec LIST_COMMAND
                  ∈ eventsOf (onDidChange demoProject)
                      (demoWorld (demoHost noCommandLine None) (JObj emptyMarkerDoc) []))
    by in_events.
  apply Hrefresh in Hin. vm_compute in Hin. discriminate.
Qed.

(** ** The state cache *)

Lemma updateStatusBarItem_hit path w v :
  defaultAuthIdsByProjectJson w !! path = Some (Some v) →
  let w' := (updateStatusBarItem (Some path) w).2 in
  trace w' = trace w
  ∧ defaultAuthIdsByProjectJson w' = defaultAuthIdsByProjectJson w
  ∧ (truthy (Some v) = true → text (statusBarItem w') = TextGlobe v).
Proof.
  intros Hc. unfold updateStatusBarItem, bind, ret, gets. cbn [fst snd].
  rewrite Hc. cbn [mjoin option_join].
  destruct (truthy (Some v)); [| done].
  destruct v; done.
Qed.

Lemma updateStatusBarItem_miss path w j v :
  mjoin (defaultAuthIdsByProjectJson w !! path) = None →
  files w !! path = Some (Parsed j) →
  getProp j DEFAULT_AUTH_ID = Ok v →
  let w' := (updateStatusBarItem (Some path) w).2 in
  trace w' = trace w ++ [EvReadFile path]
  ∧ defaultAuthIdsByProjectJson w' = <[path := v]> (defaultAuthIdsByProjectJson w)
  ∧ files w' = files w
  ∧ (truthy v = true → text (statusBarItem w') = TextGlobe (default JNull v)).
Proof.
  intros Hc Hf Hv.
  unfold updateStatusBarItem, readFile, bind, ret, gets, emit, modify, liftResult.
  cbn [fst snd files addEvent defaultAuthIdsByProjectJson]. rewrite Hc, Hf.
  cbn [JSON_parse ret]. rewrite Hv. cbn [fst snd].
  destruct v as [v|]; [| done].
  destruct (truthy (Some v)); [| done].
  destruct v; done.
Qed.

(** C9 (amended).  A read of a state file whose cached value is not
    [undefined] uses that value and reads no file.  After a miss the
    file is read and parsed once and the extracted [defaultAuthId] is
    stored: when the field is present (be it empty or [null]) the next
    read of the unchanged file reads nothing; when the field is absent
    the stored value is [undefined], which counts as a miss, and the
    next read reads and parses the file again. *)
Theorem cache_read_lazy_population (path : string) (w : World) :
  (∀ v, defaultAuthIdsByProjectJson w !! path = Some (Some v) →
        eventsOf (updateStatusBarItem (Some path)) w = []
        ∧ (truthy (Some v) = true →
           text (statusBarItem (updateStatusBarItem (Some path) w).2) = TextGlobe v))
  ∧ (∀ j v, mjoin (defaultAuthIdsByProjectJson w !! path) = None →
            files w !! path = Some (Parsed j) →
            getProp j DEFAULT_AUTH_ID = Ok v →
            let w1 := (updateStatusBarItem (Some path) w).2 in
            eventsOf (updateStatusBarItem (Some path)) w = [EvReadFile path]
            ∧ defaultAuthIdsByProjectJson w1 !! path = Some v
            ∧ eventsOf (updateStatusBarItem (Some path)) w1
              = match v with Some _ => [] | None => [EvReadFile path] end).
Proof.
  split.
  - intros v Hc. destruct (updateStatusBarItem_hit path w v Hc) as (Ht & _ & Htext).
    split; [| done]. apply eventsOf_eq. by rewrite Ht, app_nil_r.
  - intros j v Hc Hf Hv w1.
    destruct (updateStatusBarItem_miss path w j v Hc Hf Hv) as (Ht & Hc1 & Hf1 & _).
    fold w1 in Ht, Hc1, Hf1.
    assert (Hnew : defaultAuthIdsByProjectJson w1 !! path = Some v)
      by (rewrite Hc1; apply lookup_insert_eq).
    split_and!; [by apply eventsOf_eq | done |].
    destruct v as [v|].
    + destruct (updateStatusBarItem_hit path w1 v Hnew) as (Ht2 & _).
      apply eventsOf_eq. by rewrite Ht2, app_nil_r.
    + assert (Hmiss : mjoin (defaultAuthIdsByProjectJson w1 !! path) = None)
        by (by rewrite Hnew).
      rewrite <- Hf1 in Hf.
      destruct (updateStatusBarItem_miss path w1 j None Hmiss Hf Hv) as (Ht2 & _).
      by apply eventsOf_eq.
Qed.

Lemma cache_read_lazy_population_witness :
  (let w := setCache (<[demoProject := Some (JStr "sandbox1")]>)
              (demoWorld (demoHost noCommandLine None) (JObj externalDoc) []) in
   eventsOf (updateStatusBarItem (Some demoProject)) w = []
   ∧ (truthy (Some (JStr "sandbox1")) = true →
      text (statusBarItem (updateStatusBarItem (Some demoProject) w).2)
      = TextGlobe (JStr "sandbox1")))
  ∧ (let w := demoWorld (demoHost noCommandLine None) (JObj externalDoc) [] in
     let w1 := (updateStatusBarItem (Some demoProject) w).2 in
     eventsOf (updateStatusBarItem (Some demoProject)) w = [EvReadFile demoProject]
     ∧ defaultAuthIdsByProjectJson w1 !! demoProject = Some (Some (JStr "production"))
     ∧ eventsOf (updateStatusBarItem (Some demoProject)) w1 = []).
Proof.
  split.
  - intros w.
    apply (proj1 (cache_read_lazy_population demoProject w) (JStr "sandbox1")).
    reflexivity.
  - intros w.
    apply (proj2 (cache_read_lazy_population demoProject w)
             (JObj externalDoc) (Some (JStr "production"))); reflexivity.
Defined.

(** C9, as stated, fails: when the state file has no [defaultAuthId], a
    second read of the unchanged file reads it again. *)
Lemma absent_field_reparsed_counterexample :
  let w := demoWorld (demoHost noCommandLine None) (JObj noAuthIdDoc) [] in
  let w1 := (updateStatusBarItem (Some demoProject) w).2 in
  files w1 = files w
  ∧ ¬ (eventsOf (updateStatusBarItem (Some demoProject)) w1 = []).
Proof. split; [reflexivity | by vm_compute]. Qed.

(** ** Selection, write and read back *)



Lemma buildSelection_frames path envs ignoreFilter w :
  let w0 := (buildSelection path envs ignoreFilter w).2 in
  host w0 = host w ∧ files w0 = files w
  ∧ defaultAuthIdsByProjectJson w0 = defaultAuthIdsByProjectJson w
  ∧ statusBarItem w0 = statusBarItem w.
Proof.
  pose (R := λ w w' : World,
          host w' = host w ∧ files w' = files w
          ∧ defaultAuthIdsByProjectJson w' = defaultAuthIdsByProjectJson w
          ∧ statusBarItem w' = statusBarItem w).
  assert (HR : PreOrder R).
  { split; [done |]. intros w1 w2 w3 (? & ? & ? & ?) (? & ? & ? & ?).
    unfold R. split_and!; congruence. }
  assert (H : preserves R (buildSelection path envs ignoreFilter)) by frame.
  apply H.
Qed.





(** ** The selection flow *)

(** [handleSelectEnvironment], one picker at a time. *)
Lemma handleSelectEnvironment_unfold picks path envs ignoreFilter w :
  handleSelectEnvironment picks path envs ignoreFilter w
  = match buildSelection path envs ignoreFilter w with
    | (Throw, w0) => showErrorMessage MsgUnexpected w0
    | (Ok sel, w0) =>
        let wq := addEvent (EvQuickPick (map name sel.1) sel.2) w0 in
        match picks with
        | [] => (Ok tt, wq)
        | env :: later =>
            if negb (truthyString env) then (Ok tt, wq)
            else if bool_decide (env = Some MSG_SHOW_ALL_ENVIRONMENTS)
            then (Ok tt, (handleSelectEnvironment later path envs true wq).2)
            else tryCatch (switchTo path (default "" env))
                   (showErrorMessage MsgUnexpected) wq
        end
    end.
Proof.
  destruct picks as [|env later]; cbn [handleSelectEnvironment];
    unfold tryCatch, bind at 1;
    destruct (buildSelection path envs ignoreFilter w) as [[sel|] w0]; try done.
  unfold bind at 1, emit at 1, modify at 1.
  destruct (negb (truthyString env)); [done |].
  by case_bool_decide.
Qed.

Lemma onProjectJsonFileChanged_hitStable path q env :
  preserves (hitStable q) (onProjectJsonFileChanged path env).
Proof.
  unfold onProjectJsonFileChanged, writeFile. frame.
  all: try (by intros ? ?).
  all: apply loadNetSuiteEnvironments_hitStable.
Qed.

(** After the choice of a real environment the cache holds it, whatever
    becomes of the write. *)
Lemma switchTo_cache path env w :
  defaultAuthIdsByProjectJson (switchTo path env w).2 !! path = Some (Some (JStr env)).
Proof.
  assert (H : preserves (hitStable path)
                (spawn (updateStatusBarItem None) ;;
                 onProjectJsonFileChanged path (Some env) ;;
                 h <- gets host ;;
                 showInformationMessage
                   (MsgSwitched (folderName <$> getWorkspaceFolder h path) env))).
  { frame; try (by intros ? ?).
    - apply updateStatusBarItem_hitStable.
    - apply onProjectJsonFileChanged_hitStable. }
  unfold switchTo, bind at 1, modify at 1.
  apply H. apply lookup_insert_eq.
Qed.

(** The cache entry of the state file after the selection flow: as it
    was, or a real environment name. *)
Lemma handleSelectEnvironment_cache picks path envs ignoreFilter w :
  let w' := (handleSelectEnvironment picks path envs ignoreFilter w).2 in
  defaultAuthIdsByProjectJson w' !! path = defaultAuthIdsByProjectJson w !! path
  ∨ ∃ env, env ≠ "" ∧ env ≠ MSG_SHOW_ALL_ENVIRONMENTS
           ∧ defaultAuthIdsByProjectJson w' !! path = Some (Some (JStr env)).
Proof.
  revert ignoreFilter w. induction picks as [|pick later IH]; intros ignoreFilter w;
    cbn zeta; rewrite handleSelectEnvironment_unfold;
    pose proof (buildSelection_frames path envs ignoreFilter w) as (_ & _ & Hc & _);
    destruct (buildSelection path envs ignoreFilter w) as [[sel|] w0];
    cbn [snd] in Hc; cbn zeta.
  - left. cbn. by rewrite Hc.
  - left. cbn. by rewrite Hc.
  - destruct (truthyString pick) eqn:Hpick; cbn [negb].
    + apply truthyString_Some in Hpick as (env & -> & Henv).
      case_bool_decide as Hmsg.
      * cbn [snd]. destruct (IH true (addEvent (EvQuickPick (map name sel.1) sel.2) w0))
          as [Hsame | Hset].
        -- left. rewrite Hsame. cbn. by rewrite Hc.
        -- by right.
      * right. exists env. split_and!; [done | by intros -> |].
        change (default "" (Some env)) with env. unfold tryCatch.
        pose proof (switchTo_cache path env (addEvent (EvQuickPick (map name sel.1) sel.2) w0))
          as Hsw.
        destruct (switchTo path env _) as [[[]|] w1]; cbn [snd] in *; [done |].
        done.
    + left. cbn. by rewrite Hc.
  - left. cbn. by rewrite Hc.
Qed.

(** C10.  When the user picks the entry named "CLEAR FILTER / SHOW ALL",
    the flow starts again with the filter off from the very state in
    which the picker was shown: the cache and the files are those from
    before the call.  Whatever the user answers to the pickers, the
    cache entry of the state file never comes to hold that name and no
    object written to a file has it as [defaultAuthId]: an environment
    with exactly that name cannot be made the active one. *)
Theorem clear_filter_name_never_selected (path : string)
  (envs : list NetSuiteAuthAccountInfo) :
  (∀ later ignoreFilter w sel w0,
     buildSelection path envs ignoreFilter w = (Ok sel, w0) →
     handleSelectEnvironment (Some MSG_SHOW_ALL_ENVIRONMENTS :: later) path envs ignoreFilter w
     = (Ok tt, (handleSelectEnvironment later path envs true
                  (addEvent (EvQuickPick (map name sel.1) sel.2) w0)).2)
     ∧ files w0 = files w
     ∧ defaultAuthIdsByProjectJson w0 = defaultAuthIdsByProjectJson w)
  ∧ (∀ picks ignoreFilter w,
       let w' := (handleSelectEnvironment picks path envs ignoreFilter w).2 in
       (defaultAuthIdsByProjectJson w' !! path = Some (Some (JStr MSG_SHOW_ALL_ENVIRONMENTS)) →
        defaultAuthIdsByProjectJson w !! path = Some (Some (JStr MSG_SHOW_ALL_ENVIRONMENTS)))
       ∧ (∀ q m,
            EvWriteFile q (JObj m)
              ∈ eventsOf (handleSelectEnvironment picks path envs ignoreFilter) w →
            m !! DEFAULT_AUTH_ID ≠ Some (JStr MSG_SHOW_ALL_ENVIRONMENTS))).
Proof.
  split.
  - intros later ignoreFilter w sel w0 Hbs.
    pose proof (buildSelection_frames path envs ignoreFilter w) as (_ & Hf & Hc & _).
    rewrite Hbs in Hf, Hc. split_and!; [| done | done].
    rewrite handleSelectEnvironment_unfold, Hbs. cbn.
    by rewrite bool_decide_eq_true_2.
  - intros picks ignoreFilter w w'. split.
    + intros Hmsg.
      destruct (handleSelectEnvironment_cache picks path envs ignoreFilter w)
        as [Hsame | (env & _ & Hne & Hset)].
      * fold w' in Hsame. by rewrite <- Hsame.
      * fold w' in Hset. rewrite Hset in Hmsg. by injection Hmsg as ->.
    + intros q m Hin.
      pose (Q := λ e, match e with
                      | EvWriteFile _ (JObj m) =>
                          m !! DEFAULT_AUTH_ID ≠ Some (JStr MSG_SHOW_ALL_ENVIRONMENTS)
                      | _ => True
                      end).
      assert (HQ : preserves (extends Q)
                     (handleSelectEnvironment picks path envs ignoreFilter)).
      { apply handleSelectEnvironment_extends.
        - by intros [].
        - intros s [] _ Hs Hst; try done. apply stamped_object in Hst as [Hd _].
          cbn. rewrite Hd. by intros [= ->]. }
      specialize (HQ w). apply extends_eventsOf in HQ as [_ HF].
      rewrite Forall_forall in HF. apply (HF _ Hin).
Qed.

Lemma clear_filter_name_never_selected_witness :
  let w := demoWorld (demoHost noCommandLine (Some "sand")) (JObj externalDoc)
             clashingEnvironments in
  let shown := addEvent (EvQuickPick ["sandbox1"; MSG_SHOW_ALL_ENVIRONMENTS] "Filter: sand") w in
  (handleSelectEnvironment [Some MSG_SHOW_ALL_ENVIRONMENTS; Some MSG_SHOW_ALL_ENVIRONMENTS]
     demoProject clashingEnvironments false w
   = (Ok tt, (handleSelectEnvironment [Some MSG_SHOW_ALL_ENVIRONMENTS]
                demoProject clashingEnvironments true shown).2)
   ∧ files w = files w
   ∧ defaultAuthIdsByProjectJson w = defaultAuthIdsByProjectJson w)
  ∧ (defaultAuthIdsByProjectJson
       (handleSelectEnvironment
          [Some MSG_SHOW_ALL_ENVIRONMENTS; Some MSG_SHOW_ALL_ENVIRONMENTS; Some "sandbox1"]
          demoProject clashingEnvironments false w).2 !! demoProject
     = Some (Some (JStr MSG_SHOW_ALL_ENVIRONMENTS)) →
     defaultAuthIdsByProjectJson w !! demoProject
     = Some (Some (JStr MSG_SHOW_ALL_ENVIRONMENTS))).
Proof.
  intros w shown. split.
  - apply (proj1 (clear_filter_name_never_selected demoProject clashingEnvironments)
             [Some MSG_SHOW_ALL_ENVIRONMENTS] false w
             (clashingEnvironments, "Filter: sand") w).
    reflexivity.
  - apply (proj2 (clear_filter_name_never_selected demoProject clashingEnvironments)
             [Some MSG_SHOW_ALL_ENVIRONMENTS; Some MSG_SHOW_ALL_ENVIRONMENTS; Some "sandbox1"]
             false w).
Defined.

Example clashing_name_scenario :
  let w := demoWorld (demoHost noCommandLine None) (JObj externalDoc) clashingEnvironments in
  let w' := (handleSelectEnvironment
               [Some MSG_SHOW_ALL_ENVIRONMENTS; Some MSG_SHOW_ALL_ENVIRONMENTS; Some "sandbox1"]
               demoProject clashingEnvironments false w).2 in
  defaultAuthIdsByProjectJson w' !! demoProject = Some (Some (JStr "sandbox1"))
  ∧ filter (λ e, isQuiet e = false ∧ isWrite e = false) (trace w')
    = [EvQuickPick ["sandbox1"; MSG_SHOW_ALL_ENVIRONMENTS] "";
       EvQuickPick ["sandbox1"; MSG_SHOW_ALL_ENVIRONMENTS] "";
       EvQuickPick ["sandbox1"; MSG_SHOW_ALL_ENVIRONMENTS] "";
       EvExec LIST_COMMAND;
       EvInfo (MsgSwitched (Some "ws") "sandbox1")].
Proof. split; by vm_compute. Qed.

(** ** The filter *)

(** With a filter in place the list is the matching environments, then
    the synthetic entry when some environment was left out; a message
    is shown when nothing matches. *)
Lemma buildSelection_filtered w path pattern test (L : list NetSuiteAuthAccountInfo) :
  hasFilter (host w) path pattern test →
  let filtered := filter (λ val, test (name val) = true) L in
  buildSelection path L false w
  = (Ok (if bool_decide (length filtered < length L)
         then filtered ++ [nameOnly MSG_SHOW_ALL_ENVIRONMENTS]
         else filtered,
         "Filter: " +:+ pattern),
     if bool_decide (length filtered = 0)
     then addEvent (EvError MsgNoEnvironmentsToSelect) w
     else w).
Proof.
  intros (wf & c & Hwf & Hfind & Hreq & Hne & Hre) filtered.
  assert (Htruthy : truthyString (Some pattern) = true) by (by apply bool_decide_eq_true).
  unfold buildSelection, getSuiteCloudConfig, bind, gets, ret.
  cbn [fst snd]. rewrite Hwf, Hfind. cbn [fst snd]. rewrite Hreq.
  cbn [authIdFilter]. rewrite Htruthy. cbn [default from_option id]. rewrite Hre.
  cbn [fst snd]. fold filtered.
  by destruct (bool_decide (length filtered = 0)).
Qed.


(** The picker is shown with the list that was built, whatever the user
    answers afterwards. *)
Lemma handleSelectEnvironment_shows picks path envs ignoreFilter w sel w0 :
  buildSelection path envs ignoreFilter w = (Ok sel, w0) →
  ∃ rest, trace (handleSelectEnvironment picks path envs ignoreFilter w).2
          = trace w0 ++ EvQuickPick (map name sel.1) sel.2 :: rest.
Proof.
  intros Hbs. rewrite handleSelectEnvironment_unfold, Hbs. cbn zeta.
  set (wq := addEvent _ w0).
  assert (Hstart : ∀ w', extends (λ _, True) wq w' →
            ∃ rest, trace w' = trace w0 ++ EvQuickPick (map name sel.1) sel.2 :: rest).
  { intros w' (rest & Ht & _). exists rest. rewrite Ht. subst wq. cbn.
    by rewrite <- app_assoc. }
  destruct picks as [|pick later]; [apply Hstart; reflexivity |].
  destruct (truthyString pick) eqn:Hpick; cbn [negb]; [| apply Hstart; reflexivity].
  apply truthyString_Some in Hpick as (env & -> & Henv).
  case_bool_decide.
  - apply Hstart. by apply handleSelectEnvironment_extends.
  - apply Hstart.
    assert (H' : preserves (extends (λ _, True))
                   (tryCatch (switchTo path env) (showErrorMessage MsgUnexpected))).
    { pres; [| done]. by apply switchTo_extends. }
    apply H'.
Qed.

Lemma filter_same_length {A} (P : A → Prop) `{!∀ x, Decision (P x)} (l : list A) :
  length (filter P l) = length l → filter P l = l.
Proof.
  induction l as [|x l IH]; [done |]. rewrite filter_cons.
  pose proof (length_filter P l). case_decide; cbn [length]; intros Hlen.
  - f_equal. apply IH. lia.
  - lia.
Qed.

(** C6.  With the filter pattern [pattern] in place, the filtered list is
    made of exactly the environments of [L] whose name the
    case-insensitive regular expression matches, in the order of [L];
    the picker shows their names, followed by the single entry
    "CLEAR FILTER / SHOW ALL" when the filtered list is not empty and
    shorter than [L], and by nothing when it is all of [L]. *)
Theorem filtered_list_presented (w : World) (path pattern : string)
  (test : string → bool) (L : list NetSuiteAuthAccountInfo)
  (picks : list (option string)) :
  hasFilter (host w) path pattern test →
  let filtered := filter (λ val, test (name val) = true) L in
  filtered ≠ [] →
  sublist filtered L
  ∧ (∀ e, e ∈ filtered ↔ e ∈ L ∧ test (name e) = true)
  ∧ ∃ presented rest,
      eventsOf (handleSelectEnvironment picks path L false) w
      = EvQuickPick presented ("Filter: " +:+ pattern) :: rest
      ∧ (length filtered < length L →
         presented = map name filtered ++ [MSG_SHOW_ALL_ENVIRONMENTS])
      ∧ (length filtered = length L → presented = map name L).
Proof.
  intros Hfilter filtered Hne.
  split_and!.
  - apply sublist_filter.
  - intros e. subst filtered. rewrite list_elem_of_filter. tauto.
  - pose proof (buildSelection_filtered w path pattern test L Hfilter) as Hbs.
    cbn zeta in Hbs. fold filtered in Hbs.
    rewrite (bool_decide_eq_false_2 (length filtered = 0)) in Hbs
      by (by destruct filtered).
    destruct (handleSelectEnvironment_shows picks _ _ _ _ _ _ Hbs) as (rest & Ht).
    eexists _, rest. split; [by apply eventsOf_eq |]. cbn [fst]. split.
    + intros Hlt. rewrite bool_decide_eq_true_2 by done.
      by rewrite map_app.
    + intros Heq. rewrite bool_decide_eq_false_2 by lia.
      f_equal. subst filtered. by apply filter_same_length.
Qed.

Lemma filtered_list_presented_witness :
  let w := demoWorld (demoHost noCommandLine (Some "sand")) (JObj externalDoc)
             demoEnvironments in
  let filtered := filter (λ val, includes "sand" (toLowerCase (name val)) = true)
                    demoEnvironments in
  sublist filtered demoEnvironments
  ∧ (∀ e, e ∈ filtered
          ↔ e ∈ demoEnvironments ∧ includes "sand" (toLowerCase (name e)) = true)
  ∧ ∃ presented rest,
      eventsOf (handleSelectEnvironment [] demoProject demoEnvironments false) w
      = EvQuickPick presented "Filter: sand" :: rest
      ∧ (length filtered < length demoEnvironments →
         presented = map name filtered ++ [MSG_SHOW_ALL_ENVIRONMENTS])
      ∧ (length filtered = length demoEnvironments →
         presented = map name demoEnvironments).
Proof.
  intros w.
  apply (filtered_list_presented w demoProject "sand"
           (λ s, includes "sand" (toLowerCase s)) demoEnvironments []).
  - exists demoFolder, "/ws/suitecloud.config.js". split_and!; by vm_compute.
  - by vm_compute.
Defined.

Example filtered_list_scenario :
  eventsOf (handleSelectEnvironment [] demoProject demoEnvironments false)
    (demoWorld (demoHost noCommandLine (Some "sand")) (JObj externalDoc) demoEnvironments)
  = [EvQuickPick ["sandbox1"; MSG_SHOW_ALL_ENVIRONMENTS] "Filter: sand"].
Proof. by vm_compute. Qed.

(** C3 (amended).  When the filter pattern matches none of the
    environments of a non-empty list, an error is shown and the picker
    presents one entry only, "CLEAR FILTER / SHOW ALL"; it is when the
    user picks that entry that the next picker presents the full
    unfiltered list. *)
Theorem empty_filter_presents_clear_entry (w : World) (path pattern : string)
  (test : string → bool) (L : list NetSuiteAuthAccountInfo)
  (picks : list (option string)) :
  hasFilter (host w) path pattern test →
  filter (λ val, test (name val) = true) L = [] →
  L ≠ [] →
  (∃ rest,
     eventsOf (handleSelectEnvironment picks path L false) w
     = EvError MsgNoEnvironmentsToSelect
         :: EvQuickPick [MSG_SHOW_ALL_ENVIRONMENTS] ("Filter: " +:+ pattern) :: rest)
  ∧ (∃ rest,
       eventsOf (handleSelectEnvironment (Some MSG_SHOW_ALL_ENVIRONMENTS :: picks) path L false) w
       = EvError MsgNoEnvironmentsToSelect
           :: EvQuickPick [MSG_SHOW_ALL_ENVIRONMENTS] ("Filter: " +:+ pattern)
           :: EvQuickPick (map name L) "" :: rest).
Proof.
  intros Hfilter Hnone HL.
  pose proof (buildSelection_filtered w path pattern test L Hfilter) as Hbs.
  cbn zeta in Hbs. rewrite Hnone in Hbs. cbn [length app] in Hbs.
  rewrite bool_decide_eq_true_2 in Hbs by (destruct L; [done | cbn; lia]).
  rewrite bool_decide_eq_true_2 in Hbs by done.
  split.
  - destruct (handleSelectEnvironment_shows picks _ _ _ _ _ _ Hbs) as (rest & Ht).
    exists rest. apply eventsOf_eq. rewrite Ht. cbn. by rewrite <- app_assoc.
  - set (wq := addEvent (EvQuickPick [MSG_SHOW_ALL_ENVIRONMENTS] ("Filter: " +:+ pattern))
                 (addEvent (EvError MsgNoEnvironmentsToSelect) w)).
    destruct (handleSelectEnvironment_shows picks path L true wq (L, "") wq eq_refl)
      as (rest & Ht).
    exists rest. apply eventsOf_eq.
    rewrite handleSelectEnvironment_unfold, Hbs. cbn zeta.
    cbn [negb truthyString]. rewrite bool_decide_eq_true_2 by done.
    rewrite bool_decide_eq_true_2 by done. cbn [snd fst map name nameOnly].
    cbn [negb snd]. fold wq. rewrite Ht. subst wq. cbn. by rewrite <- !app_assoc.
Qed.

Lemma empty_filter_presents_clear_entry_witness :
  let w := demoWorld (demoHost noCommandLine (Some "zzz")) (JObj externalDoc)
             demoEnvironments in
  (∃ rest,
     eventsOf (handleSelectEnvironment [] demoProject demoEnvironments false) w
     = EvError MsgNoEnvironmentsToSelect
         :: EvQuickPick [MSG_SHOW_ALL_ENVIRONMENTS] "Filter: zzz" :: rest)
  ∧ (∃ rest,
       eventsOf (handleSelectEnvironment [Some MSG_SHOW_ALL_ENVIRONMENTS] demoProject
                   demoEnvironments false) w
       = EvError MsgNoEnvironmentsToSelect
           :: EvQuickPick [MSG_SHOW_ALL_ENVIRONMENTS] "Filter: zzz"
           :: EvQuickPick ["sandbox1"; "production"] "" :: rest).
Proof.
  intros w.
  apply (empty_filter_presents_clear_entry w demoProject "zzz"
           (λ s, includes "zzz" (toLowerCase s)) demoEnvironments []).
  - exists demoFolder, "/ws/suitecloud.config.js". split_and!; by vm_compute.
  - by vm_compute.
  - discriminate.
Defined.

(** C3, as stated, fails: the filter matches nothing and the picker
    does not present the full list of environments; what it presents
    holds no real environment. *)
Lemma empty_filter_full_list_counterexample :
  let w := demoWorld (demoHost noCommandLine (Some "zzz")) (JObj externalDoc)
             demoEnvironments in
  eventsOf (handleSelectEnvironment [] demoProject demoEnvironments false) w
  = [EvError MsgNoEnvironmentsToSelect;
     EvQuickPick [MSG_SHOW_ALL_ENVIRONMENTS] "Filter: zzz"]
  ∧ ¬ (∃ placeHolder,
         EvQuickPick (map name demoEnvironments) placeHolder
           ∈ eventsOf (handleSelectEnvironment [] demoProject demoEnvironments false) w).
Proof.
  intros w.
  assert (He : eventsOf (handleSelectEnvironment [] demoProject demoEnvironments false) w
               = [EvError MsgNoEnvironmentsToSelect;
                  EvQuickPick [MSG_SHOW_ALL_ENVIRONMENTS] "Filter: zzz"])
    by (by vm_compute).
  split; [done |]. rewrite He. intros (placeHolder & Hin).
  apply elem_of_cons in Hin as [Hin | Hin]; [discriminate |].
  apply list_elem_of_singleton in Hin. discriminate.
Qed.

(** ** Detail backfill *)

Lemma fetchDetails_cons_ok idx envName rest w stdout :
  exec (host w) (INFO_COMMAND +:+ envName) = Some stdout →
  fetchDetails idx (envName :: rest) w
  = fetchDetails idx rest
      (setEnvironments (λ envs, storeDetails (host w) idx envs envName)
         (addEvent (EvExec (INFO_COMMAND +:+ envName)) w)).
Proof.
  intros Hexec. cbn [fetchDetails].
  unfold bind at 1, execPromise, bind at 1, emit, modify, bind at 1, gets.
  cbn [fst snd host addEvent]. rewrite Hexec. cbn [ret].
  unfold bind at 1, storeEnvInfo, storeDetails. rewrite Hexec.
  destruct (idx !! envName) as [i|]; [done |].
  cbn [ret]. by f_equal.
Qed.

Lemma fetchDetails_cons_fail idx envName rest w :
  exec (host w) (INFO_COMMAND +:+ envName) = None →
  fetchDetails idx (envName :: rest) w
  = (Throw, addEvent (EvExec (INFO_COMMAND +:+ envName)) w).
Proof.
  intros Hexec. cbn [fetchDetails].
  unfold bind at 1, execPromise, bind at 1, emit, modify, bind at 1, gets.
  cbn [fst snd host addEvent]. by rewrite Hexec.
Qed.

(** The loop goes through the names in order, and its state after the
    names that were answered is the catalog with their details stored. *)
Lemma fetchDetails_prefix idx pre rest w :
  (∀ n, n ∈ pre → is_Some (exec (host w) (INFO_COMMAND +:+ n))) →
  ∃ w1,
    fetchDetails idx (pre ++ rest) w = fetchDetails idx rest w1
    ∧ host w1 = host w
    ∧ trace w1 = trace w ++ map (λ n, EvExec (INFO_COMMAND +:+ n)) pre
    ∧ environments w1 = foldl (storeDetails (host w) idx) (environments w) pre
    ∧ statusBarItem w1 = statusBarItem w.
Proof.
  revert w. induction pre as [|n pre IH]; intros w Hok.
  - exists w. cbn. by rewrite app_nil_r.
  - destruct (Hok n) as [stdout Hexec]; [apply list_elem_of_here |].
    cbn [app]. rewrite (fetchDetails_cons_ok _ _ _ _ _ Hexec).
    set (w0 := setEnvironments _ _).
    destruct (IH w0) as (w1 & Heq & Hh & Ht & He & Hs).
    { intros m Hm. apply Hok. by apply list_elem_of_further. }
    exists w1. rewrite Heq, Hh, Ht, He, Hs. subst w0. cbn.
    by rewrite <- app_assoc.
Qed.

(** C5 (amended).  The backfill asks for the details of the queued
    names one at a time, in the order of the queue.  The entries of the
    names answered before the first failing call are updated.  The
    first failure of the detail command ends the backfill: the function
    rejects, no command is launched for the names that follow, their
    entries stay as they were and the indicator is not refreshed.  When
    no call fails every queued name is processed. *)
Theorem backfill_stops_at_first_failure (w : World) (pre : list string) :
  (∀ n, n ∈ pre → is_Some (exec (host w) (INFO_COMMAND +:+ n))) →
  (let r := loadEnvironmentDetails pre w in
   r.1 = Ok tt
   ∧ (∃ quiet, eventsOf (loadEnvironmentDetails pre) w
               = map (λ n, EvExec (INFO_COMMAND +:+ n)) pre ++ quiet
               ∧ Forall (λ e, isQuiet e = true) quiet)
   ∧ environments r.2
     = foldl (storeDetails (host w) (envIndicesByName (environments w) pre))
         (environments w) pre)
  ∧ (∀ bad post,
       exec (host w) (INFO_COMMAND +:+ bad) = None →
       let envList := pre ++ bad :: post in
       let r := loadEnvironmentDetails envList w in
       r.1 = Throw
       ∧ eventsOf (loadEnvironmentDetails envList) w
         = map (λ n, EvExec (INFO_COMMAND +:+ n)) (pre ++ [bad])
       ∧ environments r.2
         = foldl (storeDetails (host w) (envIndicesByName (environments w) envList))
             (environments w) pre
       ∧ statusBarItem r.2 = statusBarItem w).
Proof.
  intros Hok. split.
  - set (idx := envIndicesByName (environments w) pre).
    destruct (fetchDetails_prefix idx pre [] w Hok) as (w1 & Heq & Hh & Ht & He & _).
    rewrite app_nil_r in Heq. cbn [fetchDetails ret] in Heq.
    assert (Hrun : loadEnvironmentDetails pre w
                   = (Ok tt, (updateStatusBarItem None w1).2)).
    { unfold loadEnvironmentDetails, bind at 1, gets at 1. fold idx.
      unfold bind at 1. by rewrite Heq. }
    cbn zeta. rewrite Hrun. cbn [fst snd]. split_and!; [done | |].
    + destruct (updateStatusBarItem_extends (λ e, isQuiet e = true) None ltac:(done) w1)
        as (quiet & Hq & HF).
      exists quiet. split; [| done]. apply eventsOf_eq.
      rewrite Hrun. cbn [snd]. by rewrite Hq, Ht, <- app_assoc.
    + assert (Henvs : preserves (λ w w', environments w' = environments w)
                        (updateStatusBarItem None)).
      { assert (PreOrder (λ w w' : World, environments w' = environments w)).
        { split; [done | intros ? ? ? ? ?; congruence]. }
        unfold updateStatusBarItem. frame. }
      by rewrite Henvs.
  - intros bad post Hbad envList r. subst r envList.
    set (envList := pre ++ bad :: post).
    set (idx := envIndicesByName (environments w) envList).
    destruct (fetchDetails_prefix idx pre (bad :: post) w Hok)
      as (w1 & Heq & Hh & Ht & He & Hs).
    rewrite <- Hh in Hbad.
    rewrite (fetchDetails_cons_fail _ _ _ _ Hbad) in Heq.
    assert (Hrun : loadEnvironmentDetails envList w
                   = (Throw, addEvent (EvExec (INFO_COMMAND +:+ bad)) w1)).
    { unfold loadEnvironmentDetails, bind at 1, gets at 1. fold idx.
      unfold bind at 1. subst envList. by rewrite Heq. }
    rewrite Hrun. cbn [fst snd]. split_and!; [done | | done | done].
    apply eventsOf_eq. rewrite Hrun. cbn. by rewrite Ht, map_app, <- app_assoc.
Qed.

Lemma backfill_stops_at_first_failure_witness :
  let w := demoWorld (demoHost failsForA None) (JObj externalDoc) abCatalog in
  (let r := loadEnvironmentDetails ["b"] w in
   r.1 = Ok tt
   ∧ (∃ quiet, eventsOf (loadEnvironmentDetails ["b"]) w
               = map (λ n, EvExec (INFO_COMMAND +:+ n)) ["b"] ++ quiet
               ∧ Forall (λ e, isQuiet e = true) quiet)
   ∧ environments r.2
     = foldl (storeDetails (host w) (envIndicesByName (environments w) ["b"]))
         (environments w) ["b"])
  ∧ (let r := loadEnvironmentDetails ["b"; "a"; "b"] w in
     r.1 = Throw
     ∧ eventsOf (loadEnvironmentDetails ["b"; "a"; "b"]) w
       = map (λ n, EvExec (INFO_COMMAND +:+ n)) ["b"; "a"]
     ∧ environments r.2
       = foldl (storeDetails (host w) (envIndicesByName (environments w) ["b"; "a"; "b"]))
           (environments w) ["b"]
     ∧ statusBarItem r.2 = statusBarItem w).
Proof.
  intros w.
  assert (Hok : ∀ n, n ∈ ["b"] → is_Some (exec (host w) (INFO_COMMAND +:+ n))).
  { intros n ->%list_elem_of_singleton. by eexists. }
  destruct (backfill_stops_at_first_failure w ["b"] Hok) as [Hall Hfail].
  split; [exact Hall |].
  apply (Hfail "a" ["b"]). reflexivity.
Defined.

(** C5, as stated, fails: the detail command fails for [a], the first
    queued name, and [b], for which it would answer, is never asked
    about and keeps its entry without details. *)
Lemma backfill_aborts_counterexample :
  let w := demoWorld (demoHost failsForA None) (JObj externalDoc) abCatalog in
  is_Some (exec (host w) (INFO_COMMAND +:+ "b"))
  ∧ ¬ (EvExec (INFO_COMMAND +:+ "b") ∈ eventsOf (loadEnvironmentDetails ["a"; "b"]) w)
  ∧ environments (loadEnvironmentDetails ["a"; "b"] w).2 = abCatalog.
Proof.
  intros w. split_and!.
  - by eexists.
  - assert (He : eventsOf (loadEnvironmentDetails ["a"; "b"]) w
                 = [EvExec (INFO_COMMAND +:+ "a")]) by (by vm_compute).
    rewrite He. intros Hin%list_elem_of_singleton. discriminate.
  - by vm_compute.
Qed.

Example backfill_all_answered :
  let w := demoWorld (demoHost answersAll None) (JObj externalDoc) abCatalog in
  map (λ e, (name e, props e !! "type"))
    (environments (loadEnvironmentDetails ["a"; "b"] w).2)
  = [("a", Some "Sandbox"); ("b", Some "Sandbox")].
Proof. by vm_compute. Qed.

(** ** The merge of a refresh *)

(** The record kept under a name is the last one of that name. *)
Lemma oldEnvironmentsByName_last old n :
  oldEnvironmentsByName old !! n = last (filter (λ e, name e = n) old).
Proof.
  unfold oldEnvironmentsByName. induction old as [|x old IH] using rev_ind; [done |].
  rewrite foldl_app, filter_app. cbn [foldl]. rewrite filter_cons, filter_nil.
  case_decide as Hx.
  - rewrite <- Hx, lookup_insert_eq. by rewrite last_snoc.
  - rewrite lookup_insert_ne by done. by rewrite app_nil_r.
Qed.

Lemma oldEnvironmentsByName_Some old n e :
  oldEnvironmentsByName old !! n = Some e → e ∈ old ∧ name e = n.
Proof.
  rewrite oldEnvironmentsByName_last. intros Hlast.
  apply last_Some_elem_of, list_elem_of_filter in Hlast. tauto.
Qed.

Lemma NoDup_name_inj (old : list NetSuiteAuthAccountInfo) e1 e2 :
  NoDup (map name old) → e1 ∈ old → e2 ∈ old → name e1 = name e2 → e1 = e2.
Proof.
  induction old as [|x old IH]; cbn [map]; intros Hnd H1 H2 Hname.
  - by apply elem_of_nil in H1.
  - apply NoDup_cons in Hnd as [Hx Hnd].
    apply elem_of_cons in H1 as [-> | H1]; apply elem_of_cons in H2 as [-> | H2].
    + done.
    + exfalso. apply Hx. rewrite Hname. by apply (list_elem_of_fmap_2 name).
    + exfalso. apply Hx. rewrite <- Hname. by apply (list_elem_of_fmap_2 name).
    + by apply IH.
Qed.

(** With distinct names, each record is the one kept under its name. *)
Lemma oldEnvironmentsByName_NoDup old e :
  NoDup (map name old) → e ∈ old → oldEnvironmentsByName old !! name e = Some e.
Proof.
  intros Hnd Hin.
  assert (Hsome : is_Some (oldEnvironmentsByName old !! name e)).
  { rewrite oldEnvironmentsByName_last. apply last_is_Some.
    intros Hnil. assert (Hf : e ∈ filter (λ x, name x = name e) old)
      by (by apply list_elem_of_filter).
    rewrite Hnil in Hf. by apply elem_of_nil in Hf. }
  destruct Hsome as [y Hy]. rewrite Hy. f_equal.
  apply oldEnvironmentsByName_Some in Hy as [Hyin Hyname].
  by apply (NoDup_name_inj old).
Qed.

(** The loop of the merge, in closed form. *)
Lemma foldl_mergeStep byName acc envList :
  foldl (mergeStep byName) acc envList
  = (acc.1 ++ map (λ n, default (nameOnly n) (byName !! n)) envList,
     acc.2 ++ filter (λ n, queued byName n = true) envList).
Proof.
  revert acc. induction envList as [|n envList IH]; intros [envs todo].
  - cbn. by rewrite !app_nil_r.
  - cbn [foldl]. rewrite IH. cbn [map]. rewrite filter_cons.
    unfold mergeStep. cbn [fst snd].
    destruct (byName !! n) as [existing|] eqn:Hn; cbn [default from_option id fst snd].
    + assert (Hq : queued byName n = hasNoDetails existing)
        by (unfold queued; by rewrite Hn).
      rewrite Hq. destruct (hasNoDetails existing).
      * rewrite decide_True by done. by rewrite <- !app_assoc.
      * rewrite decide_False by done. by rewrite <- !app_assoc.
    + assert (Hq : queued byName n = true) by (unfold queued; by rewrite Hn).
      rewrite Hq, decide_True by done. by rewrite <- !app_assoc.
Qed.

Lemma mergeEnvironments_closed old envList :
  mergeEnvironments old envList
  = (map (λ n, default (nameOnly n) (oldEnvironmentsByName old !! n)) envList,
     filter (λ n, queued (oldEnvironmentsByName old) n = true) envList).
Proof. unfold mergeEnvironments. by rewrite foldl_mergeStep. Qed.






(** ** Parsing the enumeration *)

Example getNetSuiteEnvironments_scenario :
  getNetSuiteEnvironments
    (ESC +:+ "[2K" +:+ ESC +:+ "[1Gsandbox1 | 123456_SB1 | Administrator" +:+ LF
     +:+ "production | 123456 | Administrator" +:+ LF)
  = ["sandbox1"; "production"].
Proof. by vm_compute. Qed.

Lemma splitAux_nonempty sep skip cur s : splitAux sep skip cur s ≠ [].
Proof.
  revert skip cur. induction s as [|c s IH]; intros skip cur; cbn [splitAux]; [done |].
  destruct skip; [| apply IH]. destruct (startsWith sep _); [done | apply IH].
Qed.

Lemma getNetSuiteEnvironments_length stdout :
  length (getNetSuiteEnvironments stdout) = length (split LF (trim stdout)).
Proof. unfold getNetSuiteEnvironments. apply length_map. Qed.

(** [split] never returns an empty array, so the parse never yields
    zero names and the test [envList.length === 0] never succeeds. *)
Lemma getNetSuiteEnvironments_nonempty stdout : getNetSuiteEnvironments stdout ≠ [].
Proof.
  intros Hnil. apply (f_equal length) in Hnil.
  rewrite getNetSuiteEnvironments_length in Hnil.
  destruct (split LF (trim stdout)) eqn:Hs; [| done].
  by apply splitAux_nonempty in Hs.
Qed.

(** C4, the failing input.  For empty output the parse yields one name,
    the empty string, not zero names; the refresh then makes a catalog
    of one environment of that name and reports one environment
    retrieved, it shows no error, and [activate] goes on to register
    its listeners. *)
Theorem empty_output_yields_one_environment :
  getNetSuiteEnvironments "" = [""]
  ∧ (∀ stdout, getNetSuiteEnvironments stdout ≠ [])
  ∧ (let w := demoWorld (demoHost printsNothing None) (JObj externalDoc) [] in
     environments (loadNetSuiteEnvironments w).2 = [nameOnly ""]
     ∧ eventsOf loadNetSuiteEnvironments w
       = [EvExec LIST_COMMAND; EvInfo (MsgRetrieved 1); EvExec INFO_COMMAND]
     ∧ (activate w).1 = Ok true).
Proof.
  split_and!.
  - reflexivity.
  - apply getNetSuiteEnvironments_nonempty.
  - cbn zeta. split_and!; by vm_compute.
Qed.

(** * Further properties of the environment module *)

(** ** Change notifications and the cache *)

(** X1.  A change notification for one state file drops and reloads the
    cache entry of that file only: a value cached for any other state
    file stays, no file is changed, and when the changed file holds a
    [defaultAuthId] the entry of that file holds it afterwards, whatever
    it held before. *)
Theorem notification_invalidates_one_entry (path : string) (w : World) :
  (∀ q v, q ≠ path →
          defaultAuthIdsByProjectJson w !! q = Some (Some v) →
          defaultAuthIdsByProjectJson (onDidChange path w).2 !! q = Some (Some v))
  ∧ files (onDidChange path w).2 = files w
  ∧ (∀ j v, files w !! path = Some (Parsed j) →
            getProp j DEFAULT_AUTH_ID = Ok (Some v) →
            defaultAuthIdsByProjectJson (onDidChange path w).2 !! path = Some (Some v)).
Proof.
  split_and!.
  - intros q v Hq Hv.
    assert (H : preserves (hitStable q)
                  (spawn (updateStatusBarItem (Some path)) ;;
                   spawn (onProjectJsonFileChanged path None))).
    { frame.
      - apply updateStatusBarItem_hitStable.
      - apply onProjectJsonFileChanged_hitStable. }
    unfold onDidChange, bind at 1, modify at 1.
    apply H. cbn. by rewrite lookup_delete_ne.
  - apply (onDidChange_sameFiles path w).
  - intros j v Hf Hv.
    unfold onDidChange, bind, modify, spawn. cbn [fst snd].
    set (wd := setCache (delete path) w).
    assert (Hmiss : mjoin (defaultAuthIdsByProjectJson wd !! path) = None).
    { subst wd. cbn. by rewrite lookup_delete_eq. }
    destruct (updateStatusBarItem_miss path wd j (Some v) Hmiss Hf Hv) as (_ & Hc & _).
    apply (onProjectJsonFileChanged_hitStable path path None).
    rewrite Hc. apply lookup_insert_eq.
Qed.

Lemma notification_invalidates_one_entry_witness :
  defaultAuthIdsByProjectJson (onDidChange demoProject staleCacheWorld).2 !! otherProject
  = Some (Some (JStr "qa"))
  ∧ defaultAuthIdsByProjectJson (onDidChange demoProject staleCacheWorld).2 !! demoProject
    = Some (Some (JStr "sandbox1")).
Proof.
  destruct (notification_invalidates_one_entry demoProject staleCacheWorld)
    as (Hother & _ & Hreload).
  split.
  - apply Hother; [discriminate | reflexivity].
  - apply (Hreload (JObj engineDoc)); reflexivity.
Defined.

(** ** The project locator *)

(** X2.  [findNearestProjectJsonFile] never throws.  A state file it
    returns is memoized: asked again, whatever the file search would
    now answer, it returns the same file and changes nothing, not even
    the trace.  When it returns none, nothing is memoized, so the search
    is made again at the next call. *)
Theorem project_locator_memoizes (refFile : option string) (w : World) :
  ∃ r w1,
    findNearestProjectJsonFile refFile w = (Ok r, w1)
    ∧ (∀ f g, r = Some f →
              findNearestProjectJsonFile refFile (withFindFiles g w1)
              = (Ok (Some f), withFindFiles g w1))
    ∧ (r = None →
       projectJsonFilesByWorkspaceFolder w1 = projectJsonFilesByWorkspaceFolder w).
Proof.
  unfold findNearestProjectJsonFile, bind, gets, ret. cbn [fst snd].
  set (ref := match refFile with Some r => Some r | None => activeTextEditor (host w) end).
  destruct (ref ≫= getWorkspaceFolder (host w)) as [wf|] eqn:Hwf.
  - destruct (projectJsonFilesByWorkspaceFolder w !! folderPath wf) as [f|] eqn:Hmemo.
    + eexists _, _. split_and!; [reflexivity | | done].
      intros f' g [= <-]. cbn [host withFindFiles activeTextEditor getWorkspaceFolder
                                projectJsonFilesByWorkspaceFolder].
      fold ref. rewrite Hwf. cbn. by rewrite Hmemo.
    + destruct (findFiles (host w) wf "project.json") as [|f [|f2 fs]].
      * eexists _, _. split_and!; [reflexivity | done | done].
      * cbn. eexists _, _. split_and!; [reflexivity | | done].
        intros f' g [= <-]. cbn [host withFindFiles activeTextEditor getWorkspaceFolder
                                  projectJsonFilesByWorkspaceFolder setMemo].
        fold ref. rewrite Hwf. cbn. by rewrite lookup_insert_eq.
      * cbn. eexists _, _. split_and!; [reflexivity | done | done].
  - eexists _, _. split_and!; [reflexivity | done | done].
Qed.

Lemma project_locator_memoizes_witness :
  let w := demoWorld (demoHost noCommandLine None) (JObj externalDoc) demoEnvironments in
  ∃ w1,
    findNearestProjectJsonFile None w = (Ok (Some demoProject), w1)
    ∧ findNearestProjectJsonFile None (withFindFiles (λ _ _, []) w1)
      = (Ok (Some demoProject), withFindFiles (λ _ _, []) w1).
Proof.
  intros w.
  destruct (project_locator_memoizes None w) as (r & w1 & Hrun & Hmemo & _).
  assert (Hr : r = Some demoProject).
  { assert (Hc : (findNearestProjectJsonFile None w).1 = Ok (Some demoProject))
      by reflexivity.
    rewrite Hrun in Hc. by injection Hc. }
  exists w1. split; [by rewrite Hrun, Hr | by apply Hmemo].
Defined.

(** ** The selection flow: no filter, broken filter, no choice *)

Lemma buildSelection_onlyTraced path envs ignoreFilter :
  preserves onlyTraced (buildSelection path envs ignoreFilter).
Proof.
  assert (HR : PreOrder onlyTraced).
  { split; [done |].
    intros w1 w2 w3 (? & ? & ? & ? & ? & ?) (? & ? & ? & ? & ? & ?).
    unfold onlyTraced. split_and!; congruence. }
  frame.
Qed.

(** X3.  When the project asks for no filter the picker presents the
    names of the whole catalog, in order, with an empty placeholder and
    no "CLEAR FILTER / SHOW ALL" entry; nothing is shown before it
    unless the catalog is empty, in which case the error about having
    no environment to select from comes first. *)
Theorem selection_without_filter (w : World) (path : string)
  (L : list NetSuiteAuthAccountInfo) (picks : list (option string)) :
  unfiltered (host w) path →
  ∃ rest,
    eventsOf (handleSelectEnvironment picks path L false) w
    = (if bool_decide (L = []) then [EvError MsgNoEnvironmentsToSelect] else [])
        ++ EvQuickPick (map name L) "" :: rest.
Proof.
  intros Hno.
  assert (Hbs : buildSelection path L false w
                = (Ok (L, ""),
                   if bool_decide (L = [])
                   then addEvent (EvError MsgNoEnvironmentsToSelect) w else w)).
  { unfold unfiltered in Hno.
    unfold buildSelection, getSuiteCloudConfig, bind, gets, ret. cbn [fst snd].
    assert (Hend : ∀ w0,
              (let (r, w') :=
                 (if bool_decide (length L = 0)
                  then showErrorMessage MsgNoEnvironmentsToSelect else λ w1, (Ok (), w1)) w0 in
               match r with
               | Ok _ => (Ok (if bool_decide (length L < length L)
                              then L ++ [nameOnly MSG_SHOW_ALL_ENVIRONMENTS] else L, ""), w')
               | Throw => (Throw, w')
               end)
              = (Ok (L, ""),
                 if bool_decide (L = [])
                 then addEvent (EvError MsgNoEnvironmentsToSelect) w0 else w0)).
    { intros w0. rewrite (bool_decide_eq_false_2 (length L < length L)) by lia.
      destruct L; [done |]. by rewrite !bool_decide_eq_false_2. }
    destruct (getWorkspaceFolder (host w) path) as [wf|]; [| apply Hend].
    destruct (findFiles (host w) wf "suitecloud.config.js") as [|c [|c2 cs]];
      [apply Hend | | done].
    destruct Hno as (ex & Hreq & Hfalsy). cbn [fst snd]. rewrite Hreq, Hfalsy.
    apply Hend. }
  destruct (handleSelectEnvironment_shows picks _ _ _ _ _ _ Hbs) as (rest & Ht).
  exists rest. apply eventsOf_eq. rewrite Ht.
  case_bool_decide; cbn; by rewrite <- ?app_assoc.
Qed.

Lemma selection_without_filter_witness :
  ∃ rest,
    eventsOf (handleSelectEnvironment [None] demoProject demoEnvironments false)
      (demoWorld (demoHost noCommandLine None) (JObj externalDoc) demoEnvironments)
    = (if bool_decide (demoEnvironments = []) then [EvError MsgNoEnvironmentsToSelect] else [])
        ++ EvQuickPick (map name demoEnvironments) "" :: rest.
Proof.
  apply selection_without_filter. by vm_compute.
Defined.

(** X4.  When the one configuration file of the project cannot be
    loaded, or its [authIdFilter] does not compile as a regular
    expression, the selection flow shows the error about an unexpected
    error and nothing else: no picker is opened and no variable, file
    or indicator changes, whatever the catalog is. *)
Theorem broken_filter_blocks_selection (w : World) (path : string)
  (L : list NetSuiteAuthAccountInfo) (picks : list (option string)) :
  brokenFilter (host w) path →
  handleSelectEnvironment picks path L false w
  = (Ok tt, addEvent (EvError MsgUnexpected) w).
Proof.
  intros (wf & c & Hwf & Hfind & Hbroken).
  assert (Hbs : buildSelection path L false w = (Throw, w)).
  { unfold buildSelection, getSuiteCloudConfig, bind, gets, ret. cbn [fst snd].
    rewrite Hwf, Hfind. cbn [fst snd].
    destruct Hbroken as [Hreq | (pattern & Hreq & Hne & Hre)]; rewrite Hreq; [done |].
    assert (Htruthy : truthyString (Some pattern) = true)
      by (by apply bool_decide_eq_true).
    cbn [authIdFilter]. rewrite Htruthy. cbn [default from_option id].
    by rewrite Hre. }
  by rewrite handleSelectEnvironment_unfold, Hbs.
Qed.

Lemma broken_filter_blocks_selection_witness :
  let w := demoWorld (strictHost (Some "(sand")) (JObj externalDoc) demoEnvironments in
  handleSelectEnvironment [Some "sandbox1"] demoProject demoEnvironments false w
  = (Ok tt, addEvent (EvError MsgUnexpected) w).
Proof.
  intros w. apply broken_filter_blocks_selection.
  exists demoFolder, "/ws/suitecloud.config.js". split_and!; [done | done |].
  right. exists "(sand". split_and!; by vm_compute.
Defined.

(** X5.  When the user dismisses the picker, picks an entry whose name
    is empty, or has not answered, the flow ends there: no variable, no
    file and no indicator has changed since the call. *)
Theorem dismissed_picker_changes_nothing (path : string)
  (L : list NetSuiteAuthAccountInfo) (ignoreFilter : bool) (w : World)
  (later : list (option string)) :
  onlyTraced w (handleSelectEnvironment [] path L ignoreFilter w).2
  ∧ onlyTraced w (handleSelectEnvironment (None :: later) path L ignoreFilter w).2
  ∧ onlyTraced w (handleSelectEnvironment (Some "" :: later) path L ignoreFilter w).2.
Proof.
  pose proof (buildSelection_onlyTraced path L ignoreFilter w) as Hbs.
  split_and!; rewrite handleSelectEnvironment_unfold;
    destruct (buildSelection path L ignoreFilter w) as [[sel|] w0]; exact Hbs.
Qed.


(** ** Backfill in place *)

#[local] Instance sameEnvironments_preorder : PreOrder sameEnvironments.
Proof. split; [done | intros w1 w2 w3 H1 H2; unfold sameEnvironments in *; congruence]. Qed.

#[local] Instance inPlace_preorder envs0 envList : PreOrder (inPlace envs0 envList).
Proof.
  split.
  - intros w. by split.
  - intros w1 w2 w3 [Hl1 H1] [Hl2 H2]. split; [congruence |].
    intros i e H0 Hn Hi. apply (H2 i e H0 Hn), (H1 i e H0 Hn), Hi.
Qed.

Lemma updateStatusBarItem_sameEnvironments jsonFile :
  preserves sameEnvironments (updateStatusBarItem jsonFile).
Proof. unfold updateStatusBarItem. frame. Qed.

(** An index kept for a name is that of an entry of that name, and the
    name is one of the queue. *)
Lemma envIndicesByName_Some envs envList n i :
  envIndicesByName envs envList !! n = Some i →
  ∃ e, envs !! i = Some e ∧ name e = n ∧ n ∈ envList.
Proof.
  unfold envIndicesByName. revert n i.
  induction envs as [|x envs IH] using rev_ind; intros n i; [done |].
  rewrite imap_app, foldl_app. cbn [imap foldl fst snd].
  rewrite Nat.add_0_r. case_bool_decide as Hx.
  - destruct (decide (name x = n)) as [<- | Hne].
    + rewrite lookup_insert_eq. intros [= <-]. exists x.
      by rewrite lookup_app_r, Nat.sub_diag.
    + rewrite lookup_insert_ne by done. intros Hi.
      destruct (IH n i Hi) as (e & He & Hname & Hin). exists e.
      split_and!; [| done | done]. by apply lookup_app_l_Some.
  - intros Hi. destruct (IH n i Hi) as (e & He & Hname & Hin). exists e.
    split_and!; [| done | done]. by apply lookup_app_l_Some.
Qed.

Lemma fetchDetails_inPlace envs0 envList idx names :
  (∀ n i, idx !! n = Some i → ∃ e, envs0 !! i = Some e ∧ name e ∈ envList) →
  preserves (inPlace envs0 envList) (fetchDetails idx names).
Proof.
  intros Hidx. induction names as [|n names IH]; cbn [fetchDetails].
  - apply preserves_ret. tc_solve.
  - apply preserves_bind; [tc_solve | | intros stdout].
    { unfold execPromise. frame; by intros ?; split. }
    apply preserves_bind; [tc_solve | | intros _; apply IH].
    unfold storeEnvInfo. destruct (idx !! n) as [i|] eqn:Hi;
      [| apply preserves_ret; tc_solve].
    apply preserves_modify. intros w. split.
    + cbn. apply length_insert.
    + intros j e Hj Hn Hw. cbn.
      destruct (Hidx n i Hi) as (e' & He' & Hin).
      rewrite list_lookup_insert_ne; [done |].
      intros ->. rewrite Hj in He'. injection He' as ->. done.
Qed.

Lemma loadEnvironmentDetails_inPlace (envList : list string) (w : World) :
  inPlace (environments w) envList w (loadEnvironmentDetails envList w).2.
Proof.
  set (envs0 := environments w).
  assert (H : preserves (inPlace envs0 envList)
                (fetchDetails (envIndicesByName envs0 envList) envList ;;
                 spawn (updateStatusBarItem None))).
  { apply preserves_bind; [tc_solve | | intros _].
    - apply fetchDetails_inPlace. intros n i Hi.
      destruct (envIndicesByName_Some _ _ _ _ Hi) as (e & He & <- & Hin). by exists e.
    - apply preserves_spawn. intros w0.
      pose proof (updateStatusBarItem_sameEnvironments None w0) as Hsame.
      unfold sameEnvironments in Hsame. split; rewrite Hsame; [done | tauto]. }
  unfold loadEnvironmentDetails, bind at 1, gets at 1. fold envs0. apply H.
Qed.

(** X7.  The backfill replaces entries in place: the catalog keeps its
    length, and every entry whose name is not in the queue is, at the
    same position, what it was; this holds also when the backfill
    stops at a failing call. *)
Theorem backfill_in_place (envList : list string) (w : World) :
  let w' := (loadEnvironmentDetails envList w).2 in
  length (environments w') = length (environments w)
  ∧ ∀ i e, environments w !! i = Some e → name e ∉ envList →
           environments w' !! i = Some e.
Proof.
  destruct (loadEnvironmentDetails_inPlace envList w) as [Hlen Hkeep].
  split; [done |]. intros i e Hi Hn. by apply Hkeep.
Qed.

Lemma backfill_in_place_witness :
  let w := demoWorld (demoHost answersAll None) (JObj externalDoc)
             [nameOnly "a"; detailedB; nameOnly "b"] in
  environments (loadEnvironmentDetails ["a"; "b"] w).2 !! 1 = Some detailedB.
Proof.
  intros w.
  apply (proj2 (backfill_in_place ["a"; "b"] w) 1 detailedB).
  - reflexivity.
  - apply (bool_decide_unpack _). by vm_compute.
Defined.

(** ** Refresh and activation *)

(** After the merge and the backfill it starts, the catalog has one
    entry for each parsed name. *)
Lemma refreshCatalog_length stdout w :
  (refreshCatalog stdout w).1 = Ok tt
  ∧ length (environments (refreshCatalog stdout w).2)
    = length (getNetSuiteEnvironments stdout).
Proof.
  unfold refreshCatalog.
  rewrite (bool_decide_eq_false_2 (length (getNetSuiteEnvironments stdout) = 0)).
  2:{ pose proof (getNetSuiteEnvironments_nonempty stdout).
      by destruct (getNetSuiteEnvironments stdout). }
  unfold bind, ret, gets, modify, showInformationMessage, emit, modify, spawn.
  cbn [fst snd].
  set (merged := mergeEnvironments (environments w) (getNetSuiteEnvironments stdout)).
  assert (Hlen : length merged.1 = length (getNetSuiteEnvironments stdout)).
  { subst merged. rewrite mergeEnvironments_closed. apply length_map. }
  case_bool_decide; cbn [fst snd]; [| done].
  split; [done |].
  match goal with
  | |- length (environments (loadEnvironmentDetails ?l ?w0).2) = _ =>
      destruct (loadEnvironmentDetails_inPlace l w0) as [Hl _]; rewrite Hl
  end.
  done.
Qed.

Lemma loadNetSuiteEnvironments_length w stdout :
  exec (host w) LIST_COMMAND = Some stdout →
  length (environments (loadNetSuiteEnvironments w).2)
  = length (getNetSuiteEnvironments stdout).
Proof.
  intros Hexec. unfold loadNetSuiteEnvironments.
  rewrite tryCatch_execPromise, Hexec. unfold tryCatch.
  destruct (refreshCatalog_length stdout (addEvent (EvExec LIST_COMMAND) w)) as [Hok Hlen].
  destruct (refreshCatalog stdout _) as [[[]|] w1]; [done | discriminate].
Qed.

(** X8.  Activation.  Without any [project.json] in the workspace it
    shows an error and does nothing else.  With one, when the list
    command fails and no environment is known, it registers nothing and
    leaves the indicator visible with the text it was created with,
    "Getting NetSuite environments...", after the error about the
    command.  With one, when the list command succeeds, whatever it
    prints, the listeners and the command are registered. *)
Theorem activation_outcomes (w : World) :
  (findProjectFiles (host w) = [] →
   activate w = (Ok false, addEvent (EvError MsgNoProjectJsonInWorkspace) w))
  ∧ (findProjectFiles (host w) ≠ [] →
     exec (host w) LIST_COMMAND = None →
     environments w = [] →
     (activate w).1 = Ok false
     ∧ statusBarItem (activate w).2
       = {| text := TextGettingEnvironments; color := None; visible := true |}
     ∧ eventsOf activate w = [EvExec LIST_COMMAND; EvError MsgErrorRetrieving])
  ∧ (∀ stdout,
       findProjectFiles (host w) ≠ [] →
       exec (host w) LIST_COMMAND = Some stdout →
       (activate w).1 = Ok true).
Proof.
  split_and!.
  - intros Hnone. unfold activate, bind at 1, gets at 1. by rewrite Hnone.
  - intros Hsome Hexec Henvs.
    assert (Hrun : activate w
              = (Ok false,
                 addEvent (EvError MsgErrorRetrieving)
                   (addEvent (EvExec LIST_COMMAND)
                      (setStatusBar (λ _, {| text := TextGettingEnvironments;
                                             color := None; visible := true |}) w)))).
    { unfold activate, bind at 1, gets at 1. cbn [fst snd].
      rewrite bool_decide_eq_false_2 by (by destruct (findProjectFiles (host w))).
      unfold bind at 1, createStatusBarItem, modify at 1.
      unfold bind at 1, loadNetSuiteEnvironments.
      rewrite tryCatch_execPromise. cbn [host setStatusBar]. rewrite Hexec.
      unfold showErrorMessage, emit, modify, bind, gets. cbn [fst snd environments
        addEvent setStatusBar]. by rewrite Henvs. }
    rewrite Hrun. cbn [fst snd]. split_and!; [done | done |].
    apply eventsOf_eq. rewrite Hrun. cbn. by rewrite <- app_assoc.
  - intros stdout Hsome Hexec.
    unfold activate, bind at 1, gets at 1. cbn [fst snd].
    rewrite bool_decide_eq_false_2 by (by destruct (findProjectFiles (host w))).
    unfold bind at 1, createStatusBarItem, modify at 1.
    set (w0 := setStatusBar _ w).
    assert (Hexec0 : exec (host w0) LIST_COMMAND = Some stdout) by done.
    pose proof (loadNetSuiteEnvironments_length w0 stdout Hexec0) as Hlen.
    pose proof (getNetSuiteEnvironments_nonempty stdout) as Hne.
    unfold bind at 1.
    destruct (loadNetSuiteEnvironments w0) as [[[]|] w1] eqn:Hload.
    + unfold bind at 1, gets at 1. cbn [fst snd] in *.
      rewrite bool_decide_eq_false_2.
      * unfold bind, spawn, ret. done.
      * rewrite Hlen. by destruct (getNetSuiteEnvironments stdout).
    + assert (Hok : (loadNetSuiteEnvironments w0).1 = Ok tt).
      { unfold loadNetSuiteEnvironments, tryCatch.
        by destruct (bind _ _ w0) as [[[]|] w2]. }
      rewrite Hload in Hok. discriminate.
Qed.

Lemma activation_outcomes_witness :
  (let w := demoWorld emptyWorkspaceHost (JObj externalDoc) [] in
   activate w = (Ok false, addEvent (EvError MsgNoProjectJsonInWorkspace) w))
  ∧ (let w := demoWorld (demoHost noCommandLine None) (JObj externalDoc) [] in
   (activate w).1 = Ok false
   ∧ statusBarItem (activate w).2
     = {| text := TextGettingEnvironments; color := None; visible := true |}
   ∧ eventsOf activate w = [EvExec LIST_COMMAND; EvError MsgErrorRetrieving])
  ∧ (activate (demoWorld (demoHost printsNothing None) (JObj externalDoc) [])).1 = Ok true.
Proof.
  split_and!.
  - intros w. by apply (proj1 (activation_outcomes w)).
  - intros w. apply (proj1 (proj2 (activation_outcomes w))); [discriminate | done | done].
  - apply (proj2 (proj2 (activation_outcomes _)) ""); [discriminate | done].
Defined.

(** ** A refresh that finds what is known *)

Lemma map_fixed {A} (f : A → A) (l : list A) :
  (∀ x, x ∈ l → f x = x) → map f l = l.
Proof.
  induction l as [|x l IH]; intros Hf; [done |]. cbn [map].
  rewrite Hf by apply list_elem_of_here. f_equal. apply IH.
  intros y Hy. apply Hf. by apply list_elem_of_further.
Qed.

(** Merging a catalog of distinct names, all with their details, with
    its own names gives the catalog back and queues nothing. *)
Lemma mergeEnvironments_same old :
  NoDup (map name old) →
  (∀ e, e ∈ old → hasNoDetails e = false) →
  mergeEnvironments old (map name old) = (old, []).
Proof.
  intros Hnd Hdet. rewrite mergeEnvironments_closed. f_equal.
  - rewrite map_map. apply map_fixed. intros e He.
    by rewrite (oldEnvironmentsByName_NoDup old e Hnd He).
  - assert (Hall : Forall (λ n, ¬ (queued (oldEnvironmentsByName old) n = true))
                     (map name old)).
    { apply Forall_forall. intros n Hn.
      apply (list_elem_of_fmap_1 name) in Hn as (e & -> & He).
      unfold queued. rewrite (oldEnvironmentsByName_NoDup old e Hnd He), (Hdet e He).
      discriminate. }
    revert Hall. generalize (map name old). intros l Hall.
    induction Hall as [|n l Hn Hall IH]; [done |].
    rewrite filter_cons, decide_False by done. done.
Qed.

(** X9.  A refresh whose enumeration gives exactly the names of the
    catalog, when these are distinct and all have their details, leaves
    the catalog as it is, reports the number of environments and asks
    for no details: the list command is the only one launched. *)
Theorem refresh_of_known_catalog (w : World) (stdout : string) :
  exec (host w) LIST_COMMAND = Some stdout →
  getNetSuiteEnvironments stdout = map name (environments w) →
  NoDup (map name (environments w)) →
  (∀ e, e ∈ environments w → hasNoDetails e = false) →
  environments (loadNetSuiteEnvironments w).2 = environments w
  ∧ eventsOf loadNetSuiteEnvironments w
    = [EvExec LIST_COMMAND; EvInfo (MsgRetrieved (length (environments w)))].
Proof.
  intros Hexec Hnames Hnd Hdet.
  assert (Hrun : loadNetSuiteEnvironments w
            = (Ok tt,
               addEvent (EvInfo (MsgRetrieved (length (environments w))))
                 (setEnvironments (λ _, environments w)
                    (addEvent (EvExec LIST_COMMAND) w)))).
  { unfold loadNetSuiteEnvironments. rewrite tryCatch_execPromise, Hexec.
    unfold tryCatch, refreshCatalog. cbn zeta.
    rewrite (bool_decide_eq_false_2 (length (getNetSuiteEnvironments stdout) = 0)).
    2:{ pose proof (getNetSuiteEnvironments_nonempty stdout).
        by destruct (getNetSuiteEnvironments stdout). }
    rewrite Hnames.
    unfold bind, ret, gets, modify, showInformationMessage, emit, modify.
    cbn [fst snd environments addEvent].
    rewrite (mergeEnvironments_same _ Hnd Hdet). cbn [fst snd length].
    rewrite length_map.
    by rewrite (bool_decide_eq_false_2 (0 < 0)) by lia. }
  rewrite Hrun. split; [done |].
  apply eventsOf_eq. rewrite Hrun. cbn. by rewrite <- app_assoc.
Qed.

Lemma refresh_of_known_catalog_witness :
  let w := demoWorld (demoHost listsAB None) (JObj externalDoc) [detailedA; detailedB] in
  environments (loadNetSuiteEnvironments w).2 = environments w
  ∧ eventsOf loadNetSuiteEnvironments w
    = [EvExec LIST_COMMAND; EvInfo (MsgRetrieved (length (environments w)))].
Proof.
  intros w.
  apply (refresh_of_known_catalog w
           ("A | 111 | Developer" +:+ LF +:+ "B | 222 | Administrator" +:+ LF)).
  - reflexivity.
  - by vm_compute.
  - apply (bool_decide_unpack _). by vm_compute.
  - intros e He. apply elem_of_cons in He as [-> | He]; [by vm_compute |].
    apply list_elem_of_singleton in He as ->. by vm_compute.
Defined.

(** ** The lines of the detail command *)

Lemma append_assoc (a b c : string) : (a +:+ b) +:+ c = a +:+ (b +:+ c).
Proof.
  induction a as [|x a IH]; [done |].
  change (String x ((a +:+ b) +:+ c) = String x (a +:+ (b +:+ c))). by rewrite IH.
Qed.

Lemma append_nil_r (a : string) : a +:+ "" = a.
Proof.
  induction a as [|x a IH]; [done |].
  change (String x (a +:+ "") = String x a). by rewrite IH.
Qed.

Lemma startsWith_char c x s :
  startsWith (String c "") (String x s) = bool_decide (c = x).
Proof. cbn. by rewrite andb_true_r. Qed.

(** Splitting at a single character gives one piece more than there
    are occurrences of the character. *)
Lemma splitAux_char_length c cur s :
  length (splitAux (String c "") 0 cur s) = S (countChar c s).
Proof.
  revert cur. induction s as [|x s IH]; intros cur; [done |].
  cbn [splitAux countChar]. rewrite startsWith_char.
  destruct (decide (c = x)) as [-> | Hne].
  - rewrite !bool_decide_eq_true_2 by done. cbn. by rewrite IH.
  - rewrite !bool_decide_eq_false_2 by (done || by intros ->). by rewrite IH.
Qed.

Lemma splitAux_char_none c cur s :
  countChar c s = 0 → splitAux (String c "") 0 cur s = [cur +:+ s].
Proof.
  revert cur. induction s as [|x s IH]; intros cur Hc.
  - cbn. by rewrite append_nil_r.
  - cbn [splitAux countChar] in *. rewrite startsWith_char.
    destruct (decide (x = c)) as [-> | Hne].
    + by rewrite bool_decide_eq_true_2 in Hc.
    + rewrite bool_decide_eq_false_2 in Hc by done.
      rewrite bool_decide_eq_false_2 by (by intros ->).
      rewrite IH by done. by rewrite append_assoc.
Qed.

Lemma splitAux_char_first c cur k v :
  countChar c k = 0 →
  splitAux (String c "") 0 cur (k +:+ String c v)
  = (cur +:+ k) :: splitAux (String c "") 0 "" v.
Proof.
  revert cur. induction k as [|x k IH]; intros cur Hc.
  - change ("" +:+ String c v) with (String c v). cbn [splitAux].
    rewrite startsWith_char, bool_decide_eq_true_2 by done.
    by rewrite append_nil_r.
  - change (String x k +:+ String c v) with (String x (k +:+ String c v)).
    cbn [splitAux countChar] in *. rewrite startsWith_char.
    destruct (decide (x = c)) as [-> | Hne].
    + by rewrite bool_decide_eq_true_2 in Hc.
    + rewrite bool_decide_eq_false_2 in Hc by done.
      rewrite bool_decide_eq_false_2 by (by intros ->).
      rewrite IH by done. by rewrite append_assoc.
Qed.

(** X10.  A line of the detail command counts only when it has exactly
    one colon: a line with none or with several (as a line giving a
    URL) leaves the record as it is; a line [k:v] sets the property
    named by [k] trimmed to [v] trimmed, and sets [type] as well when
    that name is "Account Type". *)
Theorem detail_line_needs_one_colon (envInfo : NetSuiteAuthAccountInfo) :
  (∀ line, countChar COLON line ≠ 1 → infoStep envInfo line = envInfo)
  ∧ (∀ k v, countChar COLON k = 0 → countChar COLON v = 0 →
            infoStep envInfo (k +:+ String COLON v)
            = if bool_decide (trim k = "Account Type")
              then setField "type" (trim v) (setField (trim k) (trim v) envInfo)
              else setField (trim k) (trim v) envInfo).
Proof.
  split.
  - intros line Hcount. unfold infoStep.
    pose proof (splitAux_char_length COLON "" line) as Hlen.
    change (splitAux (String COLON "") 0 "" line) with (split ":" line) in Hlen.
    destruct (split ":" line) as [|a [|b [|c l]]]; try done.
    cbn in Hlen. lia.
  - intros k v Hk Hv. unfold infoStep.
    change (split ":" (k +:+ String COLON v))
      with (splitAux (String COLON "") 0 "" (k +:+ String COLON v)).
    rewrite (splitAux_char_first COLON "" k v Hk), (splitAux_char_none COLON "" v Hv).
    done.
Qed.

Lemma detail_line_needs_one_colon_witness :
  infoStep (nameOnly "sb1") "Domain: https://123456-sb1.app.netsuite.com" = nameOnly "sb1"
  ∧ infoStep (nameOnly "sb1") ("Account Type" +:+ String COLON " Sandbox ")
    = setField "type" "Sandbox" (setField "Account Type" "Sandbox" (nameOnly "sb1")).
Proof.
  destruct (detail_line_needs_one_colon (nameOnly "sb1")) as [Hskip Hset].
  split.
  - apply Hskip. by vm_compute.
  - rewrite (Hset "Account Type" " Sandbox "); by vm_compute.
Defined.

(** ** The indicator *)

(** X11.  What the indicator shows for a cached [defaultAuthId], without
    any file being read.  A falsy value (the empty string, [null], [0],
    [false]) hides it and leaves its text and colour.  A non-empty
    string is shown after "$(globe)", in yellow when [isProd] says
    production and in white otherwise.  Any other truthy value (a
    number, [true], an array, an object) is put in the text, then the
    function rejects, with the colour and the visibility as they were. *)
Theorem indicator_rendering (path : string) (w : World) (v : json) :
  defaultAuthIdsByProjectJson w !! path = Some (Some v) →
  let r := updateStatusBarItem (Some path) w in
  trace r.2 = trace w
  ∧ (truthy (Some v) = false →
     r.1 = Ok tt
     ∧ statusBarItem r.2
       = {| text := text (statusBarItem w); color := color (statusBarItem w);
            visible := false |})
  ∧ (∀ s, v = JStr s → s ≠ "" →
          r.1 = Ok tt
          ∧ statusBarItem r.2
            = {| text := TextGlobe (JStr s);
                 color := Some (if isProd (environments w) s then "yellow" else "white");
                 visible := true |})
  ∧ (truthy (Some v) = true → (∀ s, v ≠ JStr s) →
     r.1 = Throw
     ∧ statusBarItem r.2
       = {| text := TextGlobe v; color := color (statusBarItem w);
            visible := visible (statusBarItem w) |}).
Proof.
  intros Hc r. subst r.
  unfold updateStatusBarItem, bind, ret, gets. cbn [fst snd].
  rewrite Hc. cbn [mjoin option_join].
  split_and!.
  - destruct (truthy (Some v)); [| done]. by destruct v.
  - by intros ->.
  - intros s -> Hs. by rewrite (bool_decide_eq_true_2 _ Hs : truthy (Some (JStr s)) = true).
  - intros -> Hns. destruct v; try done. by destruct (Hns s).
Qed.

Lemma indicator_rendering_witness :
  (let w := setCache (<[demoProject := Some (JStr "")]>)
              (demoWorld (demoHost noCommandLine None) (JObj externalDoc) demoEnvironments) in
   (updateStatusBarItem (Some demoProject) w).1 = Ok tt
   ∧ statusBarItem (updateStatusBarItem (Some demoProject) w).2
     = {| text := TextNone; color := None; visible := false |})
  ∧ (let w := setCache (<[demoProject := Some (JStr "production")]>)
                (demoWorld (demoHost noCommandLine None) (JObj externalDoc) demoEnvironments) in
     (updateStatusBarItem (Some demoProject) w).1 = Ok tt
     ∧ statusBarItem (updateStatusBarItem (Some demoProject) w).2
       = {| text := TextGlobe (JStr "production"); color := Some "yellow"; visible := true |})
  ∧ (let w := setCache (<[demoProject := Some (JBool true)]>)
                (demoWorld (demoHost noCommandLine None) (JObj externalDoc) demoEnvironments) in
     (updateStatusBarItem (Some demoProject) w).1 = Throw
     ∧ statusBarItem (updateStatusBarItem (Some demoProject) w).2
       = {| text := TextGlobe (JBool true); color := None; visible := false |}).
Proof.
  split_and!; intros w.
  - apply (proj1 (proj2 (indicator_rendering demoProject w (JStr "") eq_refl))).
    reflexivity.
  - apply (proj1 (proj2 (proj2 (indicator_rendering demoProject w (JStr "production") eq_refl)))
             "production"); [reflexivity | discriminate].
  - apply (proj2 (proj2 (proj2 (indicator_rendering demoProject w (JBool true) eq_refl))));
      [reflexivity | discriminate].
Defined.

(** X12.  For a name whose catalog record has an account identifier
    that does not start with "tstdrv": the record's type "Production"
    makes it production; with any other type, or none, the answer is
    that of the name alone, production exactly when the name contains
    "prod" up to case, as when there is no record.  The empty name is
    never production. *)
Theorem isProd_known_record (envs : list NetSuiteAuthAccountInfo) (authId : string)
  (accInfo : NetSuiteAuthAccountInfo) :
  authId ≠ "" →
  accInfoOf envs authId = Some accInfo →
  startsWith "tstdrv" (toLowerCase (default "" (props accInfo !! "Account ID"))) = false →
  (props accInfo !! "type" = Some "Production" → isProd envs authId = true)
  ∧ (props accInfo !! "type" ≠ Some "Production" →
     (isProd envs authId = true
      ↔ ∃ a m b, authId = a +:+ m +:+ b ∧ toLowerCase m = "prod"))
  ∧ isProd envs "" = false.
Proof.
  intros Hne Hacc Hts. split_and!.
  - intros Htype. unfold isProd. rewrite bool_decide_eq_false_2 by done.
    rewrite Hacc. cbn [mbind option_bind]. rewrite Hts.
    by rewrite bool_decide_eq_true_2.
  - intros Htype. rewrite <- includes_lower_spec.
    unfold isProd. rewrite bool_decide_eq_false_2 by done.
    rewrite Hacc. cbn [mbind option_bind]. rewrite Hts.
    by rewrite bool_decide_eq_false_2.
  - done.
Qed.

Lemma isProd_known_record_witness :
  isProd [detailedB] "B" = true
  ∧ (isProd [setField "type" "Sandbox" (nameOnly "preprod-sb")] "preprod-sb" = true
     ↔ ∃ a m b, "preprod-sb" = a +:+ m +:+ b ∧ toLowerCase m = "prod").
Proof.
  split.
  - apply (proj1 (isProd_known_record [detailedB] "B" detailedB
                    ltac:(discriminate) eq_refl eq_refl)).
    reflexivity.
  - apply (proj1 (proj2 (isProd_known_record
                           [setField "type" "Sandbox" (nameOnly "preprod-sb")] "preprod-sb"
                           (setField "type" "Sandbox" (nameOnly "preprod-sb"))
                           ltac:(discriminate) eq_refl eq_refl))).
    by vm_compute.
Defined.

(** ** The parsed names *)

Lemma noControl_app a b : noControl (a +:+ b) = noControl a && noControl b.
Proof.
  induction a as [|x a IH]; [done |].
  change (String x a +:+ b) with (String x (a +:+ b)). cbn [noControl].
  by rewrite IH, andb_assoc.
Qed.

Lemma noControl_stripControl s : noControl (stripControl s) = true.
Proof.
  unfold stripControl. induction s as [|x s IH]; [done |]. cbn [filterChars].
  destruct (isControl x) eqn:Hx; cbn [negb]; [done |]. cbn [noControl].
  by rewrite Hx, IH.
Qed.

Lemma noControl_dropChars n s : noControl s = true → noControl (dropChars n s) = true.
Proof.
  revert s. induction n as [|n IH]; intros s Hs; [done |].
  destruct s as [|x s]; [done |]. cbn [dropChars]. apply IH.
  cbn [noControl] in Hs. by apply andb_true_iff in Hs as [_ ?].
Qed.

Lemma noControl_replaceFirst pat s :
  noControl s = true → noControl (replaceFirst pat "" s) = true.
Proof.
  induction s as [|x s IH]; intros Hs; cbn [replaceFirst].
  - destruct (startsWith pat ""); [| done].
    change ("" +:+ dropChars (String.length pat) "") with (dropChars (String.length pat) "").
    by apply noControl_dropChars.
  - destruct (startsWith pat (String x s)).
    + change ("" +:+ dropChars (String.length pat) (String x s))
        with (dropChars (String.length pat) (String x s)).
      by apply noControl_dropChars.
    + cbn [noControl] in *. apply andb_true_iff in Hs as [Hx Hs].
      by rewrite Hx, IH.
Qed.

Lemma noControl_splitAux sep skip cur s :
  noControl cur = true → noControl s = true →
  Forall (λ piece, noControl piece = true) (splitAux sep skip cur s).
Proof.
  revert skip cur. induction s as [|x s IH]; intros skip cur Hcur Hs; cbn [splitAux].
  - by constructor.
  - cbn [noControl] in Hs. apply andb_true_iff in Hs as [Hx Hs].
    destruct skip as [|k]; [| by apply IH].
    destruct (startsWith sep (String x s)).
    + constructor; [done |]. by apply IH.
    + apply IH; [| done]. rewrite noControl_app, Hcur. cbn [noControl].
      by rewrite Hx.
Qed.

(** X13.  The parse of the list command's output gives one name for
    each line of the trimmed output, that is one more than it has line
    feeds, and no name holds a control character. *)
Theorem parsed_names_are_clean (stdout : string) :
  length (getNetSuiteEnvironments stdout) = S (countChar "010"%char (trim stdout))
  ∧ ∀ envName, envName ∈ getNetSuiteEnvironments stdout → noControl envName = true.
Proof.
  split.
  - rewrite getNetSuiteEnvironments_length. apply splitAux_char_length.
  - intros envName Hin. unfold getNetSuiteEnvironments in Hin.
    apply (list_elem_of_fmap_1 _) in Hin as (line & -> & _).
    pose proof (noControl_splitAux " | " 0 "" (cleanLine line) eq_refl) as Hpieces.
    unfold cleanLine in Hpieces at 1.
    specialize (Hpieces (noControl_replaceFirst _ _ (noControl_stripControl line))).
    fold (split " | " (cleanLine line)) in Hpieces.
    destruct (split " | " (cleanLine line)) as [|piece pieces]; [done |].
    by apply Forall_cons in Hpieces as [? _].
Qed.

Lemma parsed_names_are_clean_witness :
  noControl "sandbox1" = true.
Proof.
  apply (proj2 (parsed_names_are_clean
                  (ESC +:+ "[2K" +:+ ESC +:+ "[1Gsandbox1 | 123456_SB1 | Administrator"
                   +:+ LF +:+ "production | 123456 | Administrator" +:+ LF))).
  apply (bool_decide_unpack _). by vm_compute.
Defined.

(** * The active project *)

Lemma startsWith_app p s : startsWith p (p +:+ s) = true.
Proof. apply startsWith_spec. by exists s. Qed.

Lemma dropChars_app p s : dropChars (String.length p) (p +:+ s) = s.
Proof.
  induction p as [|x p IH]; [done |].
  change (String x p +:+ s) with (String x (p +:+ s)). by cbn.
Qed.

Lemma replaceFirst_unfold pat rep s :
  replaceFirst pat rep s
  = if startsWith pat s then rep +:+ dropChars (String.length pat) s
    else match s with
         | "" => ""
         | String c s' => String c (replaceFirst pat rep s')
         end.
Proof. by destruct s. Qed.

(** Replacing a prefix with nothing leaves what follows it. *)
Lemma replaceFirst_prefix p s : replaceFirst p "" (p +:+ s) = s.
Proof. by rewrite replaceFirst_unfold, startsWith_app, dropChars_app. Qed.

(** The pieces of a path that starts with a separator and a
    directory. *)
Lemma split_leading_directory c dir rest :
  countChar c dir = 0 →
  (rest = "" ∨ ∃ r, rest = String c r) →
  ∃ pieces, split (String c "") (String c dir +:+ rest) = "" :: dir :: pieces.
Proof.
  intros Hdir Hrest. unfold split.
  change (String c dir +:+ rest) with ("" +:+ String c (dir +:+ rest)).
  rewrite (splitAux_char_first c "" "" (dir +:+ rest) eq_refl).
  change ("" +:+ "") with "".
  destruct Hrest as [-> | (r & ->)].
  - rewrite append_nil_r, (splitAux_char_none c "" dir Hdir). by exists [].
  - rewrite (splitAux_char_first c "" dir r Hdir). by eexists.
Qed.

Lemma split_two_directories c d1 d2 rest :
  countChar c d1 = 0 → countChar c d2 = 0 →
  (rest = "" ∨ ∃ r, rest = String c r) →
  ∃ pieces,
    split (String c "") (String c d1 +:+ String c d2 +:+ rest) = "" :: d1 :: d2 :: pieces.
Proof.
  intros H1 H2 Hrest. unfold split.
  change (String c d1 +:+ String c d2 +:+ rest)
    with ("" +:+ String c (d1 +:+ String c (d2 +:+ rest))).
  rewrite (splitAux_char_first c "" "" _ eq_refl).
  rewrite (splitAux_char_first c "" d1 _ H1).
  change ("" +:+ "") with "". change ("" +:+ d1) with d1.
  destruct Hrest as [-> | (r & ->)].
  - rewrite append_nil_r, (splitAux_char_none c "" d2 H2). by exists [].
  - rewrite (splitAux_char_first c "" d2 r H2). by eexists.
Qed.

Import MultiProject.

Lemma sepChar_not_in_src p : countChar (sepChar p) "src" = 0.
Proof. by destruct p. Qed.



(** X15.  Without an editor, or when the editor shows a file of the
    workspace that is not under the directory [src] of its root, the
    active project file is neither read nor written: nothing changes. *)
Theorem editor_outside_src_is_ignored (p : Platform)
  (workspaceRoot dir rest activeProjectJsonFile : string) (w : World) :
  countChar (sepChar p) dir = 0 →
  dir ≠ "src" →
  (rest = "" ∨ ∃ r, rest = String (sepChar p) r) →
  handleChangeActiveTextEditor p workspaceRoot
    (Some (workspaceRoot +:+ sep p +:+ dir +:+ rest)) activeProjectJsonFile w
  = (Ok tt, w)
  ∧ handleChangeActiveTextEditor p workspaceRoot None activeProjectJsonFile w = (Ok tt, w).
Proof.
  intros Hdir Hne Hrest. split; [| done].
  unfold handleChangeActiveTextEditor, filePathArray.
  rewrite replaceFirst_prefix.
  destruct (split_leading_directory (sepChar p) dir rest Hdir Hrest) as (pieces & Hsplit).
  change (sep p +:+ dir +:+ rest) with (String (sepChar p) dir +:+ rest).
  unfold sep. rewrite Hsplit. cbn [lookup list_lookup].
  by rewrite bool_decide_eq_true_2 by (by intros [= ?]).
Qed.

Lemma editor_outside_src_is_ignored_witness :
  handleChangeActiveTextEditor Win32 "C:\ws" (Some "C:\ws\docs\notes.md")
    activeProjectFile activeProjectWorld
  = (Ok tt, activeProjectWorld)
  ∧ handleChangeActiveTextEditor Win32 "C:\ws" None activeProjectFile activeProjectWorld
    = (Ok tt, activeProjectWorld).
Proof.
  apply (editor_outside_src_is_ignored Win32 "C:\ws" "docs" "\notes.md").
  - reflexivity.
  - discriminate.
  - right. by eexists.
Defined.

(** X16.  The handler has no error handling of its own: when the editor
    shows a file under [src/<project>/] and the active project file is
    missing or does not hold JSON, the call rejects after the read, and
    no file is written. *)
Theorem unreadable_active_project_rejects (p : Platform)
  (workspaceRoot project rest activeProjectJsonFile : string) (w : World) :
  countChar (sepChar p) project = 0 →
  (rest = "" ∨ ∃ r, rest = String (sepChar p) r) →
  files w !! activeProjectJsonFile = None ∨ files w !! activeProjectJsonFile = Some NotJson →
  handleChangeActiveTextEditor p workspaceRoot
    (Some (workspaceRoot +:+ sep p +:+ "src" +:+ sep p +:+ project +:+ rest))
    activeProjectJsonFile w
  = (Throw, addEvent (EvReadFile activeProjectJsonFile) w).
Proof.
  intros Hproject Hrest Hfile.
  unfold handleChangeActiveTextEditor, filePathArray.
  rewrite replaceFirst_prefix.
  destruct (split_two_directories (sepChar p) "src" project rest
              (sepChar_not_in_src p) Hproject Hrest) as (pieces & Hsplit).
  change (sep p +:+ "src" +:+ sep p +:+ project +:+ rest)
    with (String (sepChar p) "src" +:+ String (sepChar p) project +:+ rest).
  unfold sep. rewrite Hsplit. cbn [lookup list_lookup].
  rewrite bool_decide_eq_false_2 by (by intros H).
  unfold readFile, bind, emit, modify, gets. cbn [fst snd files addEvent].
  by destruct Hfile as [-> | ->].
Qed.

Lemma unreadable_active_project_rejects_witness :
  handleChangeActiveTextEditor Posix "/ws" (Some "/ws/src/ProjectA/manifest.xml")
    "/ws/missing.json" activeProjectWorld
  = (Throw, addEvent (EvReadFile "/ws/missing.json") activeProjectWorld).
Proof.
  apply (unreadable_active_project_rejects Posix "/ws" "ProjectA" "/manifest.xml").
  - reflexivity.
  - right. by eexists.
  - left. reflexivity.
Defined.
